(** * Cookie scanner: a shallow embedding of [parser.py]

    The development follows the source file top to bottom: the Python
    values that flow through the scanner, the per-cookie evaluator
    [_get_cookie_security_recommendations], the analysis loop of
    [scan_cookies] with its set of site-wide recommendations, and finally
    [scan_cookies] itself as a function of the outside world (HTTP client,
    clock, file system, console).

    Python [str] values are represented by their UTF-8 encoding, one
    [ascii] per byte.  Byte-wise lexicographic comparison of UTF-8 text
    coincides with code-point comparison, which is the order Python uses
    for [str]. *)

From Stdlib Require Import ZArith.
From stdpp Require Import gmap strings list sorting pretty.

Set Warnings "-register-all".

(** ** Python values *)

(** The values stored in the dictionaries the scanner builds
    ([Dict[str, Any]] in the source). *)
Inductive pyval : Type :=
  | PyNone
  | PyBool (b : bool)
  | PyInt (n : Z)
  | PyStr (s : string)
  | PyList (l : list pyval)
  | PyDict (d : gmap string pyval).

Global Instance pyval_inhabited : Inhabited pyval := populate PyNone.

(** Python truthiness, as tested by [not x] and [if x]. *)
Definition truthy (v : pyval) : bool :=
  match v with
  | PyNone => false
  | PyBool b => b
  | PyInt n => negb (n =? 0)%Z
  | PyStr s => negb (String.eqb s "")
  | PyList l => negb (Nat.eqb (length l) 0)
  | PyDict d => negb (Nat.eqb (size d) 0)
  end.

(** [d.get(k)]: the value under [k], or [None] when the key is absent. *)
Definition dict_get (d : gmap string pyval) (k : string) : pyval :=
  default PyNone (d !! k).

(** The double-quote character and the line feed, which have no literal
    form inside a string. *)
Definition dquote : string := String (Ascii.ascii_of_nat 34) EmptyString.
Definition nl : string := String (Ascii.ascii_of_nat 10) EmptyString.

(** ** The per-cookie evaluator *)

Definition REC_SECURE : string := "Установить флаг Secure".
Definition REC_HTTPONLY : string := "Установить флаг HttpOnly".
Definition REC_SAMESITE : string :=
  "Установить атрибут SameSite (рекомендуемые значения: "
  +:+ dquote +:+ "Strict" +:+ dquote +:+ " или "
  +:+ dquote +:+ "Lax" +:+ dquote +:+ ")".

(** [_get_cookie_security_recommendations]: the list starts empty and each
    of the three [if not ...get(...)] tests appends its string. *)
Definition _get_cookie_security_recommendations
    (cookie_attributes : gmap string pyval) : list string :=
  let recommendations : list string := [] in
  let recommendations :=
    if negb (truthy (dict_get cookie_attributes "secure"))
    then recommendations ++ [REC_SECURE] else recommendations in
  let recommendations :=
    if negb (truthy (dict_get cookie_attributes "httponly"))
    then recommendations ++ [REC_HTTPONLY] else recommendations in
  let recommendations :=
    if negb (truthy (dict_get cookie_attributes "samesite_value"))
    then recommendations ++ [REC_SAMESITE] else recommendations in
  recommendations.

(** ** The outside world *)

(** Exceptions, split the way the two [except] clauses of [scan_cookies]
    split them: [requests.exceptions.RequestException] and its subclasses
    (connection errors, timeouts, [HTTPError]), and every other
    [Exception].  The string is [str(e)].  Signals that are not
    [Exception]s (a keyboard interrupt) are outside the model. *)
Inductive exn : Type :=
  | RequestException (msg : string)
  | OtherException (msg : string).

(** A cookie of the [RequestsCookieJar] ([http.cookiejar.Cookie]), with
    the attributes the scanner reads. *)
Record Cookie : Type := {
  name : string;
  value : pyval;
  domain : string;
  path : string;
  secure : pyval;
  expires : option Z;
  _rest : gmap string pyval
}.

(** The [requests.Response].  [http_error] is the text of the
    [HTTPError] that [raise_for_status] builds for this response. *)
Record Response : Type := {
  status_code : Z;
  cookies : list Cookie;
  http_error : string
}.

(** Everything [scan_cookies] obtains from outside the program. *)
Record World : Type := {
  (** [requests.get(url, timeout=..., headers=...)] *)
  requests_get : string -> Z -> gmap string string -> exn + Response;
  (** the n-th reading of [datetime.now().isoformat()] *)
  now_isoformat : nat -> string;
  (** [datetime.fromtimestamp(t).isoformat()], or the message of the
      [OverflowError], [ValueError] or [OSError] it raises when [t] is
      out of range *)
  fromtimestamp_isoformat : Z -> string + string;
  (** the outcome of a block [with open('doc.txt', 'w', ...) as f: ...]:
      [None] when it completes, otherwise the message of the [OSError]
      raised by [open] or by a later write, flush or close *)
  open_doc_txt : option string;
  (** when that block raises: [None] if [open] itself raised, so that
      the file is untouched; [Some n] if the file had been opened, and
      thereby truncated, and the first [n] bytes of the text had reached
      it before the error *)
  reached_doc_txt : option nat;
  (** the built-in [repr], which [str] uses for lists and dicts *)
  py_repr : pyval -> string
}.

(** What the scan changes: the file [doc.txt] (absent or its text), the
    lines printed to the console, and how often the clock was read. *)
Record State : Type := {
  doc_txt : option string;
  console : list string;
  clock : nat
}.

(** Computations of the [try] block: they read and change the state and
    either return or raise. *)
Definition M (A : Type) : Type := State -> (exn + A) * State.

Global Instance M_ret : MRet M := fun A (a : A) st => (inr a, st).
Global Instance M_bind : MBind M := fun A B (f : A -> M B) (m : M A) st =>
  match m st with
  | (inl e, st') => (inl e, st')
  | (inr a, st') => f a st'
  end.

Definition raise {A : Type} (e : exn) : M A := fun st => (inl e, st).

Definition lift {A : Type} (r : exn + A) : M A := fun st => (r, st).

(** [datetime.now().isoformat()] *)
Definition now (w : World) (st : State) : string * State :=
  (now_isoformat w (clock st),
   {| doc_txt := doc_txt st; console := console st; clock := S (clock st) |}).

(** [with open('doc.txt', 'w', encoding='utf-8') as f: f.write(...) ...],
    where [content] is the concatenation of the chunks the block writes.
    Mode ['w'] truncates the file when it is opened and the chunks reach
    it in order, so a block that completes leaves [content], a failing
    [open] leaves the file as it was, and a failure after [open] leaves
    a prefix of [content], possibly empty. *)
Definition write_doc_txt (w : World) (content : string) : M unit := fun st =>
  match open_doc_txt w with
  | Some msg =>
      (inl (OtherException msg),
       match reached_doc_txt w with
       | None => st
       | Some n =>
           {| doc_txt := Some (String.substring 0 n content);
              console := console st; clock := clock st |}
       end)
  | None =>
      (inr tt,
       {| doc_txt := Some content; console := console st; clock := clock st |})
  end.

(** [print(line)] *)
Definition print (line : string) (st : State) : State :=
  {| doc_txt := doc_txt st; console := console st ++ [line]; clock := clock st |}.

(** [response.raise_for_status()] of the requests library: an
    [HTTPError], which is a [RequestException], exactly for the 4xx and
    5xx status codes. *)
Definition raise_for_status (response : Response) : M unit :=
  if ((400 <=? status_code response) && (status_code response <? 600))%Z
  then raise (RequestException (http_error response))
  else mret tt.

(** [str(v)], as the f-strings apply it. *)
Definition py_str (w : World) (v : pyval) : string :=
  match v with
  | PyNone => "None"
  | PyBool true => "True"
  | PyBool false => "False"
  | PyInt n => pretty n
  | PyStr s => s
  | PyList _ | PyDict _ => py_repr w v
  end.

(** ** The analysis loop of [scan_cookies] *)

(** The dict literal [cookie_info] built for one cookie.  Only the
    conversion of [cookie.expires] can raise. *)
Definition cookie_info (w : World) (cookie : Cookie)
    : string + gmap string pyval :=
  let samesite_val :=
    default (dict_get (_rest cookie) "samesite") (_rest cookie !! "SameSite") in
  let httponly :=
    bool_decide (is_Some (_rest cookie !! "HttpOnly"))
    || bool_decide (is_Some (_rest cookie !! "httponly")) in
  let expires_iso :=
    match expires cookie with
    | Some t =>
        if (t =? 0)%Z then inr PyNone
        else match fromtimestamp_isoformat w t with
             | inr iso => inr (PyStr iso)
             | inl msg => inl msg
             end
    | None => inr PyNone
    end in
  match expires_iso with
  | inl msg => inl msg
  | inr expires_val =>
      inr (<["expires" := expires_val]>
           (<["samesite_value" := samesite_val]>
            (<["httponly" := PyBool httponly]>
             (<["secure" := secure cookie]>
              (<["path" := PyStr (path cookie)]>
               (<["domain" := PyStr (domain cookie)]>
                (<["value" := value cookie]>
                 {["name" := PyStr (name cookie)]})))))))
  end.

(** [cookie_info] once [cookie_info['recommendations']] has been set: the
    entry appended to [results['cookie_details']]. *)
Definition cookie_detail (w : World) (cookie : Cookie)
    : string + gmap string pyval :=
  match cookie_info w cookie with
  | inl msg => inl msg
  | inr info =>
      let recommendations := _get_cookie_security_recommendations info in
      inr (<["recommendations" := PyList (PyStr <$> recommendations)]> info)
  end.

(** [if recommendations: for rec in recommendations: ....add(rec)] *)
Definition add_recommendations (security_recommendations : gset string)
    (recommendations : list string) : gset string :=
  match recommendations with
  | [] => security_recommendations
  | _ => foldl (fun s rec => s ∪ {[rec]}) security_recommendations recommendations
  end.

(** One iteration of [for cookie in cookies], on the two parts of
    [results] the loop updates: the list [cookie_details] and the set
    [security_recommendations]. *)
Definition analyse_cookie (w : World)
    (acc : list (gmap string pyval) * gset string) (cookie : Cookie)
    : string + (list (gmap string pyval) * gset string) :=
  match cookie_info w cookie with
  | inl msg => inl msg
  | inr info =>
      let recommendations := _get_cookie_security_recommendations info in
      let info := <["recommendations" := PyList (PyStr <$> recommendations)]> info in
      inr (acc.1 ++ [info], add_recommendations acc.2 recommendations)
  end.

Fixpoint analyse_from (w : World)
    (acc : list (gmap string pyval) * gset string) (cookies : list Cookie)
    : string + (list (gmap string pyval) * gset string) :=
  match cookies with
  | [] => inr acc
  | cookie :: rest =>
      match analyse_cookie w acc cookie with
      | inl msg => inl msg
      | inr acc' => analyse_from w acc' rest
      end
  end.

(** The whole loop, started from [cookie_details = []] and
    [security_recommendations = set()]. *)
Definition analyse_cookies (w : World) (cookies : list Cookie)
    : string + (list (gmap string pyval) * gset string) :=
  analyse_from w ([], ∅) cookies.

(** [sorted(list(s))]: Python compares [str] by code point, which on the
    UTF-8 bytes is [String.le]. *)
Definition sorted (l : list string) : list string := merge_sort String.le l.

Definition site_recommendations (security_recommendations : gset string)
    : list string :=
  sorted (elements security_recommendations).

(** ** The text written to [doc.txt] *)

(** The elements of a list value, as [for rec in ...] visits them.  The
    only value iterated is the list stored under ['recommendations']. *)
Definition py_iter (v : pyval) : list pyval :=
  match v with
  | PyList l => l
  | _ => []
  end.

(** The block written for one entry of [results['cookie_details']].  The
    subscripts read keys that [cookie_detail] always holds (lemma
    [cookie_detail_keys] below), so [!!!] never falls back on its
    default. *)
Definition cookie_block (w : World) (idx : nat)
    (cookie_detail : gmap string pyval) : string :=
  "--- Cookie #" +:+ pretty (idx + 1) +:+ " ---" +:+ nl
  +:+ "Имя: " +:+ py_str w (cookie_detail !!! "name") +:+ nl
  +:+ "Домен: " +:+ py_str w (cookie_detail !!! "domain") +:+ nl
  +:+ "Путь: " +:+ py_str w (cookie_detail !!! "path") +:+ nl
  +:+ "Атрибут Secure: " +:+ py_str w (cookie_detail !!! "secure") +:+ nl
  +:+ "Атрибут HttpOnly: " +:+ py_str w (cookie_detail !!! "httponly") +:+ nl
  +:+ "Атрибут SameSite: "
  +:+ (if truthy (cookie_detail !!! "samesite_value")
       then py_str w (cookie_detail !!! "samesite_value")
       else "Не установлен") +:+ nl
  +:+ "Истекает (Expires/Max-Age): "
  +:+ (if truthy (cookie_detail !!! "expires")
       then py_str w (cookie_detail !!! "expires")
       else "Сессионная (или не указано)") +:+ nl
  +:+ (if truthy (cookie_detail !!! "recommendations")
       then "Рекомендации по улучшению безопасности:" +:+ nl
            +:+ String.concat ""
                  ((fun rec => "  - " +:+ py_str w rec +:+ nl)
                     <$> py_iter (cookie_detail !!! "recommendations"))
       else "")
  +:+ nl.

Definition SITE_HEADER : string :=
  nl +:+ "--- Общие рекомендации по безопасности для сайта ---" +:+ nl.

(** Everything the success path writes. *)
Definition success_layout (w : World) (url scan_time : string)
    (status : Z) (cookies_found : nat)
    (cookie_details : list (gmap string pyval))
    (security_recommendations : list string) : string :=
  "Результаты сканирования cookie для URL: " +:+ url +:+ nl
  +:+ "Время сканирования: " +:+ scan_time +:+ nl
  +:+ "HTTP Status Code ответа: " +:+ pretty status +:+ nl
  +:+ "Всего найдено cookie: " +:+ pretty cookies_found +:+ nl +:+ nl
  +:+ (match cookie_details with
       | [] => "Cookies не найдены или сервер их не установил." +:+ nl
       | _ => ""
       end)
  +:+ String.concat "" (imap (cookie_block w) cookie_details)
  +:+ (match security_recommendations with
       | _ :: _ =>
           SITE_HEADER
           +:+ String.concat ""
                 ((fun rec => "- " +:+ rec +:+ nl) <$> security_recommendations)
       | [] =>
           SITE_HEADER
           +:+ "Для проанализированных cookie не найдено очевидных упущений в базовых флагах безопасности (Secure, HttpOnly, SameSite)."
           +:+ nl
       end).

(** Everything the [RequestException] handler writes. *)
Definition failure_layout (url scan_time error : string) : string :=
  "Ошибка сканирования для URL: " +:+ url +:+ nl
  +:+ "Время: " +:+ scan_time +:+ nl
  +:+ "Ошибка: " +:+ error +:+ nl.

(** ** [scan_cookies] *)

Definition USER_AGENT : string :=
  "Mozilla/5.0 (Windows NT 10.0; Win64; x64) AppleWebKit/537.36 (KHTML, like Gecko) Chrome/91.0.4472.124 Safari/537.36".

Definition headers : gmap string string := {["User-Agent" := USER_AGENT]}.

(** The body of the [try] block.  [results] is a local dict that the
    source updates in place and that leaves the function only through
    the [return] at the end of this block, so it is assembled there from
    the values the block computed. *)
Definition scan_try (w : World) (url scan_time : string) : M pyval :=
  response ← lift (requests_get w url 10 headers);
  _ ← raise_for_status response;
  let cookies_found := length (cookies response) in
  match analyse_cookies w (cookies response) with
  | inl msg => raise (OtherException msg)
  | inr (cookie_details, security_recommendations) =>
      let security_recommendations :=
        site_recommendations security_recommendations in
      _ ← write_doc_txt w
            (success_layout w url scan_time (status_code response)
               cookies_found cookie_details security_recommendations);
      mret (PyDict
        (<["security_recommendations" :=
             PyList (PyStr <$> security_recommendations)]>
         (<["cookie_details" := PyList (PyDict <$> cookie_details)]>
          (<["cookies_found" := PyInt (Z.of_nat cookies_found)]>
           (<["scan_time" := PyStr scan_time]>
            {["url" := PyStr url]})))))
  end.

(** The dict both handlers return. *)
Definition error_report (error url scan_time : string) : gmap string pyval :=
  <["scan_time" := PyStr scan_time]>
    (<["url" := PyStr url]> {["error" := PyStr error]}).

Definition scan_cookies (w : World) (url : string) (st : State)
    : pyval * State :=
  let '(scan_time, st) := now w st in
  match scan_try w url scan_time st with
  | (inr results, st) => (results, st)
  | (inl (RequestException msg), st) =>
      let error := "Ошибка при запросе к URL: " +:+ msg in
      let '(t, st) := now w st in
      let error_info := error_report error url t in
      match write_doc_txt w (failure_layout url t error) st with
      | (inr _, st) => (PyDict error_info, st)
      | (inl (RequestException write_e), st)
      | (inl (OtherException write_e), st) =>
          (PyDict error_info,
           print ("Критическая ошибка при записи лога: " +:+ write_e) st)
      end
  | (inl (OtherException msg), st) =>
      let '(t, st) := now w st in
      (PyDict (error_report ("Непредвиденная ошибка: " +:+ msg) url t), st)
  end.

(** ** Vocabulary of the statements *)

(** The loop body raises only when [datetime.fromtimestamp] rejects the
    cookie's [expires]; [converts w cookie] says that it does not. *)
Definition converts (w : World) (cookie : Cookie) : bool :=
  match cookie_info w cookie with
  | inr _ => true
  | inl _ => false
  end.

(** [r] is recommended for one of the cookies. *)
Definition recommended_for (w : World) (cookies : list Cookie) (r : string)
    : Prop :=
  ∃ cookie info,
    cookie ∈ cookies ∧ cookie_info w cookie = inr info
    ∧ r ∈ _get_cookie_security_recommendations info.

(** [details] holds the entry of each cookie, in the order of [cookies]. *)
Definition details_of (w : World) (cookies : list Cookie)
    (details : list (gmap string pyval)) : Prop :=
  Forall2 (fun cookie d => cookie_detail w cookie = inr d) cookies details.

(** The request fails with message [msg]: [requests.get] raises a
    [RequestException] (connection error, DNS failure, timeout), or the
    response carries a 4xx or 5xx status and [raise_for_status] raises. *)
Definition request_fails (w : World) (url msg : string) : Prop :=
  requests_get w url 10 headers = inl (RequestException msg)
  ∨ ∃ response,
      requests_get w url 10 headers = inr response
      ∧ (400 ≤ status_code response < 600)%Z
      ∧ http_error response = msg.

(** The dict the success path returns, as [scan_try] assembles it. *)
Definition success_report (url scan_time : string) (cookies_found : nat)
    (cookie_details : list (gmap string pyval))
    (security_recommendations : list string) : gmap string pyval :=
  <["security_recommendations" := PyList (PyStr <$> security_recommendations)]>
    (<["cookie_details" := PyList (PyDict <$> cookie_details)]>
     (<["cookies_found" := PyInt (Z.of_nat cookies_found)]>
      (<["scan_time" := PyStr scan_time]>
       {["url" := PyStr url]}))).

(** The same cookie carrying another value. *)
Definition with_value (v : pyval) (cookie : Cookie) : Cookie := {|
  name := name cookie; value := v; domain := domain cookie;
  path := path cookie; secure := secure cookie; expires := expires cookie;
  _rest := _rest cookie
|}.

(** Two entries that agree under every key except ['value']. *)
Definition same_but_value (d d' : gmap string pyval) : Prop :=
  ∀ k, k ≠ "value" → d !! k = d' !! k.

(** ** The script's entry point *)

(** What the [__main__] block needs beyond [scan_cookies]: [json.dumps]
    with its two keyword arguments, and whether
    [open('requirements.txt', 'w')] raises (with the [OSError] text). *)
Record MainWorld : Type := {
  scan_world : World;
  json_dumps : pyval -> string;
  open_requirements_txt : option string
}.

Record MainState : Type := {
  scan_state : State;
  requirements_txt : option string
}.

Definition test_url : string := "https://google.com".

Definition SAVED_MESSAGE : string :=
  nl +:+ "Подробный отчет сохранен в файле: doc.txt".

(** The [__main__] block.  The result is [None] when the script runs to
    its end and the text of the uncaught exception otherwise. *)
Definition main (mw : MainWorld) (st : MainState)
    : option string * MainState :=
  let s := print ("Сканирование URL: " +:+ test_url) (scan_state st) in
  let '(results, s) := scan_cookies (scan_world mw) test_url s in
  let s := print (nl +:+ "Результат выполнения функции (JSON):") s in
  let s := print (json_dumps mw results) s in
  let s := print SAVED_MESSAGE s in
  match open_requirements_txt mw with
  | Some msg =>
      (Some msg, {| scan_state := s; requirements_txt := requirements_txt st |})
  | None =>
      (None,
       {| scan_state := print "Файл requirements.txt создан/обновлен." s;
          requirements_txt := Some ("requests" +:+ nl) |})
  end.

(** ** Concrete inputs *)

(** The cookie of scenario A, under the keys the evaluator reads. *)
Definition scenario_a : gmap string pyval :=
  <["samesite_value" := PyNone]>
    (<["httponly" := PyBool false]>
       (<["secure" := PyBool false]> {["name" := PyStr "a"]})).

(** Two cookies: one without any flag, one with all three. *)
Definition cookie_a : Cookie := {|
  name := "a"; value := PyStr "1"; domain := "example.com"; path := "/";
  secure := PyBool false; expires := None; _rest := ∅
|}.

Definition cookie_b : Cookie := {|
  name := "b"; value := PyStr "2"; domain := "example.com"; path := "/";
  secure := PyBool true; expires := Some 1700000000%Z;
  _rest := <["HttpOnly" := PyNone]> {["SameSite" := PyStr "Strict"]}
|}.

(** A cookie without flags whose expiry lies beyond what
    [datetime.fromtimestamp] accepts (a server sending
    [Max-Age=1000000000000]). *)
Definition cookie_far : Cookie := {|
  name := "far"; value := PyStr "3"; domain := "example.com"; path := "/";
  secure := PyBool false; expires := Some 1000000000000%Z; _rest := ∅
|}.

(** [datetime.fromtimestamp(t).isoformat()] at the two timestamps above,
    on a machine set to UTC. *)
Definition fromtimestamp_example (t : Z) : string + string :=
  if (t =? 1700000000)%Z then inr "2023-11-14T22:13:20"
  else inl "year 33658 is out of range".

Definition clock_example (n : nat) : string :=
  match n with
  | 0 => "2026-01-01T12:00:00.000000"
  | _ => "2026-01-01T12:00:01.000000"
  end.

(** The server answers 200 and sets [cookie_a] and [cookie_b]; the
    working directory is writable. *)
Definition world_ok : World := {|
  requests_get := fun _ _ _ =>
    inr {| status_code := 200; cookies := [cookie_a; cookie_b];
           http_error := "" |};
  now_isoformat := clock_example;
  fromtimestamp_isoformat := fromtimestamp_example;
  open_doc_txt := None;
  reached_doc_txt := None;
  py_repr := fun _ => ""
|}.

(** The same server, but [doc.txt] cannot be opened for writing. *)
Definition world_readonly : World := {|
  requests_get := requests_get world_ok;
  now_isoformat := clock_example;
  fromtimestamp_isoformat := fromtimestamp_example;
  open_doc_txt := Some "[Errno 13] Permission denied: 'doc.txt'";
  reached_doc_txt := None;
  py_repr := fun _ => ""
|}.

(** Nobody listens at the address, and the disk is full: [doc.txt] is
    opened, and thereby emptied, but nothing can be written to it. *)
Definition world_refused_disk_full : World := {|
  requests_get := fun _ _ _ => inl (RequestException "Connection refused");
  now_isoformat := clock_example;
  fromtimestamp_isoformat := fromtimestamp_example;
  open_doc_txt := Some "[Errno 28] No space left on device";
  reached_doc_txt := Some 0;
  py_repr := fun _ => ""
|}.

(** The server answers 200 and sets [cookie_far]. *)
Definition world_far_expiry : World := {|
  requests_get := fun _ _ _ =>
    inr {| status_code := 200; cookies := [cookie_far]; http_error := "" |};
  now_isoformat := clock_example;
  fromtimestamp_isoformat := fromtimestamp_example;
  open_doc_txt := None;
  reached_doc_txt := None;
  py_repr := fun _ => ""
|}.

(** Nobody listens at the address. *)
Definition world_refused : World := {|
  requests_get := fun _ _ _ => inl (RequestException "Connection refused");
  now_isoformat := clock_example;
  fromtimestamp_isoformat := fromtimestamp_example;
  open_doc_txt := None;
  reached_doc_txt := None;
  py_repr := fun _ => ""
|}.

(** Before the scan: no [doc.txt], nothing printed, clock not yet read. *)
Definition fresh : State := {| doc_txt := None; console := []; clock := 0 |}.

(** A report of an earlier scan is still on disk. *)
Definition stale : State :=
  {| doc_txt := Some "report of an earlier scan"; console := []; clock := 0 |}.

(** A cookie that sets [SameSite] under both spellings and [HttpOnly] in
    capitals only. *)
Definition cookie_mixed : Cookie := {|
  name := "m"; value := PyStr "4"; domain := "example.com"; path := "/";
  secure := PyBool true; expires := Some 0%Z;
  _rest := <["HTTPONLY" := PyNone]>
             (<["SameSite" := PyStr ""]> {["samesite" := PyStr "Lax"]})
|}.

(** The server answers 200 without setting a cookie. *)
Definition world_no_cookies : World := {|
  requests_get := fun _ _ _ =>
    inr {| status_code := 200; cookies := []; http_error := "" |};
  now_isoformat := clock_example;
  fromtimestamp_isoformat := fromtimestamp_example;
  open_doc_txt := None;
  reached_doc_txt := None;
  py_repr := fun _ => ""
|}.

(** The server answers 200 and sets [cookie_far] between two good
    cookies. *)
Definition world_mixed_jar : World := {|
  requests_get := fun _ _ _ =>
    inr {| status_code := 200; cookies := [cookie_a; cookie_far; cookie_b];
           http_error := "" |};
  now_isoformat := clock_example;
  fromtimestamp_isoformat := fromtimestamp_example;
  open_doc_txt := None;
  reached_doc_txt := None;
  py_repr := fun _ => ""
|}.

(** The script started where the scan meets [cookie_far]; [json_dumps]
    is given at the one dict this run passes to it. *)
Definition main_world_far_expiry : MainWorld := {|
  scan_world := world_far_expiry;
  json_dumps := fun _ =>
    "{" +:+ nl
    +:+ "    " +:+ dquote +:+ "error" +:+ dquote +:+ ": " +:+ dquote
    +:+ "Непредвиденная ошибка: year 33658 is out of range" +:+ dquote
    +:+ "," +:+ nl
    +:+ "    " +:+ dquote +:+ "url" +:+ dquote +:+ ": " +:+ dquote
    +:+ "https://google.com" +:+ dquote +:+ "," +:+ nl
    +:+ "    " +:+ dquote +:+ "scan_time" +:+ dquote +:+ ": " +:+ dquote
    +:+ "2026-01-01T12:00:01.000000" +:+ dquote +:+ nl
    +:+ "}";
  open_requirements_txt := None
|}.

Definition main_fresh : MainState :=
  {| scan_state := fresh; requirements_txt := None |}.

(** The three recommendations, in the order of the three checks. *)
Definition ALL_RECOMMENDATIONS : list string :=
  [REC_SECURE; REC_HTTPONLY; REC_SAMESITE].

(** * Properties of the evaluator *)

Section evaluator.
Implicit Types (d : gmap string pyval) (v : pyval) (r : string).

Lemma REC_distinct :
  REC_SECURE ≠ REC_HTTPONLY ∧ REC_SECURE ≠ REC_SAMESITE
  ∧ REC_HTTPONLY ≠ REC_SAMESITE.
Proof. repeat split; vm_compute; discriminate. Qed.

Lemma dict_get_insert_eq d k v : dict_get (<[k := v]> d) k = v.
Proof. unfold dict_get. by rewrite lookup_insert_eq. Qed.

Lemma dict_get_insert_ne d k k' v :
  k ≠ k' → dict_get (<[k := v]> d) k' = dict_get d k'.
Proof. intros. unfold dict_get. by rewrite lookup_insert_ne. Qed.

Lemma dict_get_delete_eq d k : dict_get (delete k d) k = PyNone.
Proof. unfold dict_get. by rewrite lookup_delete_eq. Qed.

(** The evaluator as the concatenation of what each check appends. *)
Lemma evaluator_unfold d :
  _get_cookie_security_recommendations d
  = (if truthy (dict_get d "secure") then [] else [REC_SECURE])
    ++ (if truthy (dict_get d "httponly") then [] else [REC_HTTPONLY])
    ++ (if truthy (dict_get d "samesite_value") then [] else [REC_SAMESITE]).
Proof.
  unfold _get_cookie_security_recommendations.
  by destruct (truthy (dict_get d "secure")),
    (truthy (dict_get d "httponly")),
    (truthy (dict_get d "samesite_value")).
Qed.

Lemma elem_of_evaluator d r :
  r ∈ _get_cookie_security_recommendations d ↔
    (r = REC_SECURE ∧ truthy (dict_get d "secure") = false)
    ∨ (r = REC_HTTPONLY ∧ truthy (dict_get d "httponly") = false)
    ∨ (r = REC_SAMESITE ∧ truthy (dict_get d "samesite_value") = false).
Proof.
  rewrite evaluator_unfold.
  destruct (truthy (dict_get d "secure")),
    (truthy (dict_get d "httponly")),
    (truthy (dict_get d "samesite_value"));
    cbn [app]; rewrite ?elem_of_cons, ?elem_of_nil; intuition discriminate.
Qed.

Lemma secure_recommended_iff d :
  REC_SECURE ∈ _get_cookie_security_recommendations d
  ↔ truthy (dict_get d "secure") = false.
Proof.
  destruct REC_distinct as (? & ? & ?).
  rewrite elem_of_evaluator. intuition congruence.
Qed.

Lemma httponly_recommended_iff d :
  REC_HTTPONLY ∈ _get_cookie_security_recommendations d
  ↔ truthy (dict_get d "httponly") = false.
Proof.
  destruct REC_distinct as (? & ? & ?).
  rewrite elem_of_evaluator. intuition congruence.
Qed.

Lemma samesite_recommended_iff d :
  REC_SAMESITE ∈ _get_cookie_security_recommendations d
  ↔ truthy (dict_get d "samesite_value") = false.
Proof.
  destruct REC_distinct as (? & ? & ?).
  rewrite elem_of_evaluator. intuition congruence.
Qed.

Lemma evaluator_sublist d :
  _get_cookie_security_recommendations d `sublist_of` ALL_RECOMMENDATIONS.
Proof.
  rewrite evaluator_unfold. unfold ALL_RECOMMENDATIONS.
  destruct (truthy (dict_get d "secure")),
    (truthy (dict_get d "httponly")),
    (truthy (dict_get d "samesite_value"));
    cbn [app]; repeat constructor.
Qed.
End evaluator.

(** ** Scenario A *)

(** C3, as written: on the cookie of scenario A the evaluator does not
    return the three English strings; the strings of the source are in
    Russian. *)
Lemma scenario_a_not_the_english_strings :
  _get_cookie_security_recommendations scenario_a
  ≠ ["Set the Secure flag"; "Set the HttpOnly flag";
     "Set the SameSite attribute (recommended: 'Strict' or 'Lax')"].
Proof. vm_compute. discriminate. Qed.

(** C3, amended: on the cookie of scenario A the evaluator returns exactly
    the three recommendation strings of the source, Secure first, then
    HttpOnly, then SameSite. *)
Theorem scenario_a_recommendations :
  _get_cookie_security_recommendations scenario_a
  = ["Установить флаг Secure"; "Установить флаг HttpOnly"; REC_SAMESITE].
Proof. vm_compute. reflexivity. Qed.

(** ** One check per flag *)

(** C6: a cookie whose [secure] is [False] always gets the Secure
    recommendation, a cookie whose [secure] is [True] never gets it,
    whatever its other attributes are. *)
Theorem secure_flag_recommendation (d : gmap string pyval) :
  REC_SECURE ∈ _get_cookie_security_recommendations (<["secure" := PyBool false]> d)
  ∧ REC_SECURE ∉ _get_cookie_security_recommendations (<["secure" := PyBool true]> d).
Proof.
  rewrite !secure_recommended_iff, !dict_get_insert_eq. cbn [truthy].
  split; [reflexivity | discriminate].
Qed.

Lemma truthy_nonempty_str (s : string) : s ≠ "" → truthy (PyStr s) = true.
Proof.
  intros Hs. cbn [truthy]. apply negb_true_iff, String.eqb_neq, Hs.
Qed.

(** C7: without a [samesite_value] key, with the value [None] and with the
    empty string the SameSite recommendation is present; with any
    non-empty string it is absent; the absent key and the empty string
    give the same result. *)
Theorem samesite_recommendation (d : gmap string pyval) (s : string)
    (Hs : s ≠ "") :
  REC_SAMESITE ∈ _get_cookie_security_recommendations (delete "samesite_value" d)
  ∧ REC_SAMESITE ∈ _get_cookie_security_recommendations (<["samesite_value" := PyNone]> d)
  ∧ REC_SAMESITE ∈ _get_cookie_security_recommendations (<["samesite_value" := PyStr ""]> d)
  ∧ (REC_SAMESITE ∉ _get_cookie_security_recommendations (<["samesite_value" := PyStr s]> d))
  ∧ _get_cookie_security_recommendations (delete "samesite_value" d)
    = _get_cookie_security_recommendations (<["samesite_value" := PyStr ""]> d).
Proof.
  rewrite !samesite_recommended_iff, !dict_get_insert_eq, dict_get_delete_eq.
  rewrite (truthy_nonempty_str s Hs).
  repeat split; try reflexivity; try discriminate.
  rewrite !evaluator_unfold.
  rewrite dict_get_insert_eq, dict_get_delete_eq.
  unfold dict_get.
  by rewrite !lookup_delete_ne, !lookup_insert_ne.
Qed.

Lemma samesite_recommendation_witness :
  "None" ≠ ""
  ∧ REC_SAMESITE ∉ _get_cookie_security_recommendations
                     (<["samesite_value" := PyStr "None"]> scenario_a).
Proof.
  split; [discriminate |].
  apply (samesite_recommendation scenario_a "None"). discriminate.
Defined.

(** C8: the output lists the recommendations in the order of the checks,
    Secure, HttpOnly, SameSite: it is a subsequence of that list, and the
    whole list when all three checks fail. *)
Theorem evaluator_order (d : gmap string pyval) :
  _get_cookie_security_recommendations d
    `sublist_of` [REC_SECURE; REC_HTTPONLY; REC_SAMESITE]
  ∧ (truthy (dict_get d "secure") = false →
     truthy (dict_get d "httponly") = false →
     truthy (dict_get d "samesite_value") = false →
     _get_cookie_security_recommendations d
     = [REC_SECURE; REC_HTTPONLY; REC_SAMESITE]).
Proof.
  split; [apply evaluator_sublist |].
  intros H1 H2 H3. by rewrite evaluator_unfold, H1, H2, H3.
Qed.

Lemma evaluator_order_witness :
  _get_cookie_security_recommendations scenario_a
  = [REC_SECURE; REC_HTTPONLY; REC_SAMESITE].
Proof. apply (evaluator_order scenario_a); reflexivity. Defined.

(** * Properties of the analysis loop *)

Section loop.
Context (w : World).
Implicit Types (cookies : list Cookie) (s : gset string) (r : string).

Lemma foldl_add s (l : list string) :
  foldl (fun s rec => s ∪ {[rec]}) s l = s ∪ list_to_set l.
Proof.
  revert s. induction l as [|x l IH]; intros s; cbn [foldl list_to_set].
  - by rewrite (right_id_L ∅ (∪)).
  - rewrite IH. by rewrite (assoc_L (∪)).
Qed.

Lemma add_recommendations_union s (l : list string) :
  add_recommendations s l = s ∪ list_to_set l.
Proof.
  destruct l as [|x l]; [cbn; by rewrite (right_id_L ∅ (∪))|].
  apply foldl_add.
Qed.

Lemma converts_inr cookie :
  converts w cookie = true → ∃ info, cookie_info w cookie = inr info.
Proof. unfold converts. destruct (cookie_info w cookie); eauto; discriminate. Qed.

Lemma recommended_for_nil r : ¬ recommended_for w [] r.
Proof. intros (c & info & Hc & _). by apply elem_of_nil in Hc. Qed.

Lemma recommended_for_cons cookie cookies r :
  recommended_for w (cookie :: cookies) r
  ↔ (∃ info, cookie_info w cookie = inr info
             ∧ r ∈ _get_cookie_security_recommendations info)
    ∨ recommended_for w cookies r.
Proof.
  unfold recommended_for. split.
  - intros (c & info & Hc & Hinfo & Hr).
    apply elem_of_cons in Hc as [->|Hc]; [left|right]; eauto.
  - intros [(info & Hinfo & Hr)|(c & info & Hc & Hinfo & Hr)].
    + exists cookie, info. split; [left|]; auto.
    + exists c, info. split; [right|]; auto.
Qed.

(** The loop from any intermediate state: it completes when every
    remaining cookie converts, appends the entries in order and adds
    exactly the strings recommended for the remaining cookies. *)
Lemma analyse_from_spec cookies :
  ∀ acc, forallb (converts w) cookies = true →
    ∃ details s,
      analyse_from w acc cookies = inr (acc.1 ++ details, s)
      ∧ details_of w cookies details
      ∧ ∀ r, r ∈ s ↔ r ∈ acc.2 ∨ recommended_for w cookies r.
Proof.
  induction cookies as [|cookie cookies IH]; intros [ds s0] Hok.
  - exists [], s0. cbn. rewrite app_nil_r. repeat split.
    + constructor.
    + auto.
    + intros [?|Hr]; [done|]. by apply recommended_for_nil in Hr.
  - cbn [forallb] in Hok. apply andb_true_iff in Hok as [Hc Hok].
    apply converts_inr in Hc as [info Hinfo].
    cbn [analyse_from]. unfold analyse_cookie. rewrite Hinfo.
    destruct (IH (ds ++ [<["recommendations" :=
                  PyList (PyStr <$> _get_cookie_security_recommendations info)]> info],
                  add_recommendations s0
                    (_get_cookie_security_recommendations info)) Hok)
      as (details & s & Hrun & Hdetails & Hs).
    cbn [fst snd] in *.
    exists (<["recommendations" :=
              PyList (PyStr <$> _get_cookie_security_recommendations info)]> info
            :: details), s.
    repeat split.
    + rewrite Hrun. by rewrite <- app_assoc.
    + constructor; [|done]. unfold cookie_detail. by rewrite Hinfo.
    + rewrite Hs, add_recommendations_union, elem_of_union,
        elem_of_list_to_set, recommended_for_cons.
      intros [[?|?]|?]; eauto.
    + rewrite Hs, add_recommendations_union, elem_of_union,
        elem_of_list_to_set, recommended_for_cons.
      intros [?|[(info' & Hinfo' & Hr)|?]]; eauto.
      rewrite Hinfo in Hinfo'. injection Hinfo' as <-. eauto.
Qed.

Lemma analyse_cookies_spec cookies :
  forallb (converts w) cookies = true →
  ∃ details s,
    analyse_cookies w cookies = inr (details, s)
    ∧ details_of w cookies details
    ∧ ∀ r, r ∈ s ↔ recommended_for w cookies r.
Proof.
  intros Hok.
  destruct (analyse_from_spec cookies ([], ∅) Hok)
    as (details & s & Hrun & Hdetails & Hs).
  exists details, s. repeat split; auto.
  - intros Hr. apply Hs in Hr as [Hr|Hr]; [|done].
    by apply not_elem_of_empty in Hr.
  - intros Hr. apply Hs. by right.
Qed.

Lemma converts_permutation cookies cookies' :
  cookies ≡ₚ cookies' →
  forallb (converts w) cookies = true → forallb (converts w) cookies' = true.
Proof.
  intros Hperm Hok. apply forallb_forall. intros c Hc.
  eapply forallb_forall in Hok; [exact Hok|].
  eapply Permutation_in; [symmetry; exact Hperm | exact Hc].
Qed.

Lemma recommended_for_permutation cookies cookies' r :
  cookies ≡ₚ cookies' →
  recommended_for w cookies r → recommended_for w cookies' r.
Proof.
  intros Hperm (c & info & Hc & Hinfo & Hr).
  exists c, info. repeat split; auto. by rewrite <- Hperm.
Qed.
End loop.

(** ** Sorting the set *)

Lemma sorted_strongly (l : list string) : StronglySorted String.le (sorted l).
Proof. apply StronglySorted_merge_sort; apply _. Qed.

Lemma sorted_elem_of (l : list string) (r : string) : r ∈ sorted l ↔ r ∈ l.
Proof. unfold sorted. by rewrite merge_sort_Permutation. Qed.

(** The result of [sorted] does not depend on the order in which
    [list(...)] enumerates the set. *)
Lemma sorted_iteration_order (l l' : list string) :
  l ≡ₚ l' → sorted l = sorted l'.
Proof.
  intros Hperm.
  apply (StronglySorted_unique String.le); try apply sorted_strongly.
  unfold sorted. by rewrite !merge_sort_Permutation.
Qed.

Lemma site_recommendations_elem_of (s : gset string) (r : string) :
  r ∈ site_recommendations s ↔ r ∈ s.
Proof. unfold site_recommendations. by rewrite sorted_elem_of, elem_of_elements. Qed.

Lemma site_recommendations_NoDup (s : gset string) :
  NoDup (site_recommendations s).
Proof.
  unfold site_recommendations, sorted.
  rewrite merge_sort_Permutation. apply NoDup_elements.
Qed.

(** A duplicate-free ascending list with the members of [s] is
    [site_recommendations s]. *)
Lemma site_recommendations_unique (s : gset string) (l : list string) :
  (∀ r, r ∈ l ↔ r ∈ s) → NoDup l → StronglySorted String.le l →
  l = site_recommendations s.
Proof.
  intros Hmem Hnd Hsorted.
  apply (StronglySorted_unique String.le); auto.
  { apply sorted_strongly. }
  apply NoDup_Permutation; auto.
  { apply site_recommendations_NoDup. }
  intros r. by rewrite Hmem, site_recommendations_elem_of.
Qed.

(** ** The site-wide list *)

(** C4: when the loop runs through (no cookie has an [expires] that
    [datetime.fromtimestamp] rejects), the site-wide list holds exactly the
    strings recommended for some cookie, each once, in ascending order,
    and it is the only list that does. *)
Theorem site_recommendations_sorted_union (w : World) (cookies : list Cookie)
    (Hok : forallb (converts w) cookies = true) :
  ∃ details s,
    analyse_cookies w cookies = inr (details, s)
    ∧ (∀ r, r ∈ site_recommendations s ↔ recommended_for w cookies r)
    ∧ NoDup (site_recommendations s)
    ∧ StronglySorted String.le (site_recommendations s)
    ∧ (∀ l, (∀ r, r ∈ l ↔ recommended_for w cookies r) →
            NoDup l → StronglySorted String.le l →
            l = site_recommendations s).
Proof.
  destruct (analyse_cookies_spec w cookies Hok) as (details & s & Hrun & _ & Hs).
  exists details, s. repeat split.
  - exact Hrun.
  - intros Hr. by apply Hs, site_recommendations_elem_of.
  - intros Hr. by apply site_recommendations_elem_of, Hs.
  - apply site_recommendations_NoDup.
  - apply sorted_strongly.
  - intros l Hl Hnd Hsorted. apply site_recommendations_unique; auto.
    intros r. by rewrite Hl, Hs.
Qed.

Lemma site_recommendations_sorted_union_witness :
  forallb (converts world_ok) [cookie_a; cookie_a; cookie_b] = true
  ∧ ∃ details s,
      analyse_cookies world_ok [cookie_a; cookie_a; cookie_b] = inr (details, s)
      ∧ (∀ r, r ∈ site_recommendations s
              ↔ recommended_for world_ok [cookie_a; cookie_a; cookie_b] r)
      ∧ NoDup (site_recommendations s)
      ∧ StronglySorted String.le (site_recommendations s)
      ∧ (∀ l, (∀ r, r ∈ l
                    ↔ recommended_for world_ok [cookie_a; cookie_a; cookie_b] r) →
              NoDup l → StronglySorted String.le l →
              l = site_recommendations s).
Proof.
  split; [reflexivity |].
  apply (site_recommendations_sorted_union world_ok [cookie_a; cookie_a; cookie_b]).
  reflexivity.
Defined.

(** Two cookies without any flag and one with all of them: each of the
    three strings appears once, in code-point order. *)
Example two_cookies_same_flags :
  match analyse_cookies world_ok [cookie_a; cookie_a; cookie_b] with
  | inr (_, s) => site_recommendations s = [REC_SAMESITE; REC_HTTPONLY; REC_SECURE]
  | inl _ => False
  end.
Proof. vm_compute. reflexivity. Qed.

(** C5: reordering the cookies reorders the per-cookie entries with them
    and leaves the site-wide list unchanged. *)
Theorem site_recommendations_permutation (w : World)
    (cookies cookies' : list Cookie)
    (Hperm : cookies ≡ₚ cookies')
    (Hok : forallb (converts w) cookies = true) :
  ∃ details s details' s',
    analyse_cookies w cookies = inr (details, s)
    ∧ analyse_cookies w cookies' = inr (details', s')
    ∧ site_recommendations s' = site_recommendations s
    ∧ details_of w cookies details
    ∧ details_of w cookies' details'.
Proof.
  destruct (analyse_cookies_spec w cookies Hok)
    as (details & s & Hrun & Hdetails & Hs).
  destruct (analyse_cookies_spec w cookies'
              (converts_permutation w _ _ Hperm Hok))
    as (details' & s' & Hrun' & Hdetails' & Hs').
  exists details, s, details', s'. repeat split; auto.
  f_equal. apply set_eq. intros r. rewrite Hs, Hs'.
  split; apply recommended_for_permutation; [symmetry|]; exact Hperm.
Qed.

Lemma site_recommendations_permutation_witness :
  [cookie_a; cookie_b] ≡ₚ [cookie_b; cookie_a]
  ∧ forallb (converts world_ok) [cookie_a; cookie_b] = true
  ∧ ∃ details s details' s',
      analyse_cookies world_ok [cookie_a; cookie_b] = inr (details, s)
      ∧ analyse_cookies world_ok [cookie_b; cookie_a] = inr (details', s')
      ∧ site_recommendations s' = site_recommendations s
      ∧ details_of world_ok [cookie_a; cookie_b] details
      ∧ details_of world_ok [cookie_b; cookie_a] details'.
Proof.
  split; [apply perm_swap |]. split; [reflexivity |].
  apply (site_recommendations_permutation world_ok
           [cookie_a; cookie_b] [cookie_b; cookie_a]);
    [apply perm_swap | reflexivity].
Defined.

(** C10: the evaluator's output has no duplicates, at most three elements
    and is a subsequence of the three recommendations; so whenever the
    loop runs through, the site-wide set holds nothing but these three
    strings. *)
Theorem recommendations_bounded (d : gmap string pyval) (w : World)
    (cookies : list Cookie) :
  NoDup (_get_cookie_security_recommendations d)
  ∧ length (_get_cookie_security_recommendations d) ≤ 3
  ∧ _get_cookie_security_recommendations d `sublist_of` ALL_RECOMMENDATIONS
  ∧ (forallb (converts w) cookies = true →
     ∃ details s,
       analyse_cookies w cookies = inr (details, s)
       ∧ s ⊆ list_to_set ALL_RECOMMENDATIONS
       ∧ ∀ r, r ∈ site_recommendations s → r ∈ ALL_RECOMMENDATIONS).
Proof.
  assert (Hall : NoDup ALL_RECOMMENDATIONS).
  { destruct REC_distinct as (? & ? & ?). unfold ALL_RECOMMENDATIONS.
    repeat (constructor; [rewrite ?elem_of_cons, ?elem_of_nil; intuition congruence|]).
    constructor. }
  pose proof (evaluator_sublist d) as Hsub.
  repeat split.
  - eapply sublist_NoDup; eauto.
  - apply sublist_length in Hsub. exact Hsub.
  - exact Hsub.
  - intros Hok.
    destruct (analyse_cookies_spec w cookies Hok) as (details & s & Hrun & _ & Hs).
    assert (Hin : ∀ r, r ∈ s → r ∈ ALL_RECOMMENDATIONS).
    { intros r Hr. apply Hs in Hr as (c & info & _ & _ & Hr).
      eapply elem_of_sublist; [exact Hr | apply evaluator_sublist]. }
    exists details, s. repeat split; auto.
    + intros r Hr. apply elem_of_list_to_set. auto.
    + intros r Hr. by apply Hin, site_recommendations_elem_of.
Qed.

Lemma recommendations_bounded_witness :
  length (_get_cookie_security_recommendations scenario_a) ≤ 3
  ∧ ∃ details s,
      analyse_cookies world_ok [cookie_a; cookie_b] = inr (details, s)
      ∧ s ⊆ list_to_set ALL_RECOMMENDATIONS
      ∧ ∀ r, r ∈ site_recommendations s → r ∈ ALL_RECOMMENDATIONS.
Proof.
  split.
  - apply (recommendations_bounded scenario_a world_ok [cookie_a; cookie_b]).
  - apply (recommendations_bounded scenario_a world_ok [cookie_a; cookie_b]).
    reflexivity.
Defined.

(** * Properties of [scan_cookies] *)

(** Every key that [cookie_block] reads is present in the entries the
    loop builds. *)
Lemma cookie_detail_keys (w : World) (cookie : Cookie)
    (d : gmap string pyval) (k : string) :
  cookie_detail w cookie = inr d →
  k ∈ ["name"; "domain"; "path"; "secure"; "httponly"; "samesite_value";
       "expires"; "recommendations"] →
  is_Some (d !! k).
Proof.
  unfold cookie_detail, cookie_info. intros Hd Hk.
  destruct (match expires cookie with Some _ => _ | None => _ end)
    as [msg|expires_val]; [discriminate|].
  injection Hd as <-.
  repeat (apply elem_of_cons in Hk as [->|Hk];
          [rewrite ?lookup_insert_eq, ?lookup_insert_ne by discriminate;
           rewrite ?lookup_insert_eq, ?lookup_singleton_eq; eauto|]).
  by apply elem_of_nil in Hk.
Qed.

Section scan.
Context (w : World) (url : string) (st : State).

Lemma scan_try_request_failure (scan_time msg : string) (st1 : State) :
  request_fails w url msg →
  scan_try w url scan_time st1 = (inl (RequestException msg), st1).
Proof.
  unfold scan_try, mbind, M_bind, lift.
  intros [Hget|(response & Hget & [Hlo Hhi] & Hmsg)]; rewrite Hget; [done|].
  unfold raise_for_status.
  apply Z.leb_le in Hlo. apply Z.ltb_lt in Hhi. rewrite Hlo, Hhi. cbn.
  by rewrite Hmsg.
Qed.

(** A failure of the [try] block leaves the console and the clock as
    they were; the file can only have been touched by the write, which
    is its last step. *)
Lemma scan_try_failure_state (scan_time : string) (st1 st2 : State) (e : exn) :
  scan_try w url scan_time st1 = (inl e, st2) →
  console st2 = console st1 ∧ clock st2 = clock st1.
Proof.
  unfold scan_try, mbind, M_bind, lift, raise_for_status, raise, write_doc_txt, mret, M_ret.
  destruct (requests_get w url 10 headers) as [e0|response];
    [by intros [= _ <-]|].
  destruct ((400 <=? status_code response)%Z && (status_code response <? 600)%Z);
    [by intros [= _ <-]|].
  destruct (analyse_cookies w (cookies response)) as [msg|[details s]];
    [by intros [= _ <-]|].
  destruct (open_doc_txt w); [|discriminate].
  destruct (reached_doc_txt w); by intros [= _ <-].
Qed.

(** The success path: the report is returned and [doc.txt] holds the
    success layout. *)
Lemma scan_success (response : Response) :
  requests_get w url 10 headers = inr response →
  ¬ (400 ≤ status_code response < 600)%Z →
  forallb (converts w) (cookies response) = true →
  open_doc_txt w = None →
  ∃ details s results,
    analyse_cookies w (cookies response) = inr (details, s)
    ∧ scan_cookies w url st
      = (PyDict results,
         {| doc_txt :=
              Some (success_layout w url (now_isoformat w (clock st))
                      (status_code response) (length (cookies response))
                      details (site_recommendations s));
            console := console st;
            clock := S (clock st) |})
    ∧ results !! "url" = Some (PyStr url)
    ∧ results !! "scan_time" = Some (PyStr (now_isoformat w (clock st)))
    ∧ results !! "cookies_found"
      = Some (PyInt (Z.of_nat (length (cookies response))))
    ∧ results !! "cookie_details" = Some (PyList (PyDict <$> details))
    ∧ results !! "security_recommendations"
      = Some (PyList (PyStr <$> site_recommendations s))
    ∧ results !! "error" = None.
Proof.
  intros Hget Hstatus Hok Hopen.
  destruct (analyse_cookies_spec w _ Hok) as (details & s & Hrun & _ & _).
  exists details, s. eexists. split; [exact Hrun|]. split.
  - unfold scan_cookies, now, scan_try, mbind, M_bind, lift, raise_for_status.
    rewrite Hget.
    assert ((400 <=? status_code response)%Z
            && (status_code response <? 600)%Z = false) as ->.
    { apply andb_false_iff.
      destruct (Z.leb_spec 400 (status_code response)); [|by left].
      destruct (Z.ltb_spec (status_code response) 600); [|by right].
      exfalso. apply Hstatus. lia. }
    cbn. rewrite Hrun. unfold write_doc_txt. rewrite Hopen. cbn. reflexivity.
  - repeat split;
      rewrite ?lookup_insert_eq, ?lookup_insert_ne by discriminate;
      rewrite ?lookup_insert_eq, ?lookup_singleton_eq,
        ?lookup_singleton_ne by discriminate; reflexivity.
Qed.
End scan.

(** ** Request failures *)

(** C9: when the request fails, the scan returns a dict with exactly the
    keys [error], [url] and [scan_time] (so no [cookie_details]); [error]
    is the handler's prefix followed by the exception text; and [doc.txt]
    holds the three lines of the error header: the URL line, the time
    line and the error line.  Only when writing the file fails does the
    file differ (untouched if it could not be opened, otherwise cut
    short), and then one line goes to the console. *)
Theorem request_failure_report (w : World) (url : string) (st : State)
    (msg : string) (Hfail : request_fails w url msg) :
  let error := "Ошибка при запросе к URL: " +:+ msg in
  let t := now_isoformat w (S (clock st)) in
  let text :=
    "Ошибка сканирования для URL: " +:+ url +:+ nl
    +:+ "Время: " +:+ t +:+ nl
    +:+ "Ошибка: " +:+ error +:+ nl in
  ∃ d st',
    scan_cookies w url st = (PyDict d, st')
    ∧ d !! "error" = Some (PyStr error)
    ∧ d !! "url" = Some (PyStr url)
    ∧ d !! "scan_time" = Some (PyStr t)
    ∧ dom d = {["error"; "url"; "scan_time"]}
    ∧ d !! "cookie_details" = None
    ∧ doc_txt st'
      = match open_doc_txt w with
        | None => Some text
        | Some _ =>
            match reached_doc_txt w with
            | None => doc_txt st
            | Some n => Some (String.substring 0 n text)
            end
        end
    ∧ console st'
      = match open_doc_txt w with
        | None => console st
        | Some write_e =>
            console st ++ ["Критическая ошибка при записи лога: " +:+ write_e]
        end.
Proof.
  intros error t text.
  exists (error_report error url t).
  unfold scan_cookies. cbn [now].
  rewrite (scan_try_request_failure w url _ msg _ Hfail).
  cbn [now clock]. fold error t.
  unfold write_doc_txt.
  destruct (open_doc_txt w) as [write_e|]; [destruct (reached_doc_txt w)|];
    eexists; (split; [reflexivity|]).
  all: unfold error_report; repeat split;
    rewrite ?lookup_insert_eq, ?lookup_insert_ne by discriminate;
    rewrite ?lookup_insert_eq, ?lookup_singleton_eq,
      ?lookup_singleton_ne by discriminate; try reflexivity.
  all: rewrite !dom_insert_L, dom_singleton_L; set_solver.
Qed.

Lemma request_failure_report_witness :
  request_fails world_refused "https://example.com" "Connection refused"
  ∧ ∃ d st',
      scan_cookies world_refused "https://example.com" stale = (PyDict d, st')
      ∧ d !! "error"
        = Some (PyStr "Ошибка при запросе к URL: Connection refused")
      ∧ d !! "url" = Some (PyStr "https://example.com")
      ∧ d !! "scan_time" = Some (PyStr "2026-01-01T12:00:01.000000")
      ∧ dom d = {["error"; "url"; "scan_time"]}
      ∧ d !! "cookie_details" = None
      ∧ doc_txt st'
        = Some ("Ошибка сканирования для URL: https://example.com" +:+ nl
                +:+ "Время: 2026-01-01T12:00:01.000000" +:+ nl
                +:+ "Ошибка: Ошибка при запросе к URL: Connection refused"
                +:+ nl)
      ∧ console st' = [].
Proof.
  split; [by left |].
  apply (request_failure_report world_refused "https://example.com" stale
           "Connection refused").
  by left.
Defined.

(** The same request with a full disk: the dict is the same, the earlier
    report is gone, the file is empty and the failure is printed. *)
Example request_failure_disk_full :
  scan_cookies world_refused_disk_full "https://example.com" stale
  = (PyDict (error_report "Ошибка при запросе к URL: Connection refused"
               "https://example.com" "2026-01-01T12:00:01.000000"),
     {| doc_txt := Some "";
        console := ["Критическая ошибка при записи лога: [Errno 28] No space left on device"];
        clock := 2 |}).
Proof. vm_compute. reflexivity. Qed.

(** A 404 answer takes the same path. *)
Example not_found_is_a_request_failure (w : World) (cs : list Cookie) :
  requests_get w "https://example.com/missing" 10 headers
  = inr {| status_code := 404; cookies := cs; http_error := "404 Client Error" |} →
  request_fails w "https://example.com/missing" "404 Client Error".
Proof. intros Hget. right. eexists. split; [exact Hget|]. cbn. split; [lia|done]. Qed.

(** ** Where the generic handler falls short *)

(** C1, at a failing input: the server answers with two cookies, the
    report is computed, and [doc.txt] cannot be opened.  The scan returns
    the generic error dict, without [cookie_details], and prints nothing;
    with a writable directory the same scan returns the report. *)
Theorem write_failure_replaces_report :
  scan_cookies world_readonly "https://example.com" fresh
  = (PyDict (error_report
               "Непредвиденная ошибка: [Errno 13] Permission denied: 'doc.txt'"
               "https://example.com" "2026-01-01T12:00:01.000000"),
     {| doc_txt := None; console := []; clock := 2 |})
  ∧ (∃ details s, analyse_cookies world_readonly [cookie_a; cookie_b]
                  = inr (details, s))
  ∧ (∃ results st',
       scan_cookies world_ok "https://example.com" fresh = (PyDict results, st')
       ∧ is_Some (results !! "cookie_details")
       ∧ results !! "error" = None).
Proof.
  split; [vm_compute; reflexivity|]. split.
  - eexists _, _. vm_compute. reflexivity.
  - destruct (scan_success world_ok "https://example.com" fresh
                {| status_code := 200; cookies := [cookie_a; cookie_b];
                   http_error := "" |})
      as (details & s & results & _ & Hscan & _ & _ & _ & Hdetails & _ & Herr);
      [reflexivity | cbn; lia | reflexivity | reflexivity |].
    exists results. eexists. split; [exact Hscan|]. split; [eauto | exact Herr].
Qed.

(** C2, at a failing input: a cookie whose expiry
    [datetime.fromtimestamp] rejects.  The scan returns the generic error
    dict and [doc.txt] is not written: the report of an earlier scan stays
    on disk, and where there was no file there is none afterwards. *)
Theorem unexpected_failure_writes_no_file :
  scan_cookies world_far_expiry "https://example.com" stale
  = (PyDict (error_report "Непредвиденная ошибка: year 33658 is out of range"
               "https://example.com" "2026-01-01T12:00:01.000000"),
     {| doc_txt := Some "report of an earlier scan"; console := []; clock := 2 |})
  ∧ doc_txt (scan_cookies world_far_expiry "https://example.com" fresh).2 = None.
Proof. split; vm_compute; reflexivity. Qed.

(** The same in general: whenever the [try] block raises something other
    than a [RequestException], the generic handler returns its dict,
    prints nothing and leaves the file as the [try] block left it. *)
Lemma unexpected_failure_state (w : World) (url : string) (st st1 : State)
    (msg : string) :
  scan_try w url (now_isoformat w (clock st)) (now w st).2
  = (inl (OtherException msg), st1) →
  scan_cookies w url st
  = (PyDict (error_report ("Непредвиденная ошибка: " +:+ msg) url
               (now_isoformat w (S (clock st)))),
     {| doc_txt := doc_txt st1; console := console st; clock := S (S (clock st)) |}).
Proof.
  intros Htry.
  destruct (scan_try_failure_state _ _ _ _ _ _ Htry) as [Hconsole Hclock].
  unfold scan_cookies, now in *. cbn [snd console clock] in *.
  rewrite Htry, Hconsole, Hclock. reflexivity.
Qed.

(** * Further properties of the evaluator and of the loop *)

(** The evaluator reads three keys and nothing else: a change under any
    other key leaves its output as it was. *)
Theorem evaluator_ignores_other_keys (d : gmap string pyval) (k : string)
    (v : pyval)
    (Hk : k ∉ ["secure"; "httponly"; "samesite_value"]) :
  _get_cookie_security_recommendations (<[k := v]> d)
  = _get_cookie_security_recommendations d
  ∧ (_get_cookie_security_recommendations (delete k d)
     = _get_cookie_security_recommendations d).
Proof.
  assert (k ≠ "secure" ∧ k ≠ "httponly" ∧ k ≠ "samesite_value")
    as (H1 & H2 & H3).
  { repeat split; intros ->; apply Hk;
      rewrite ?elem_of_cons; auto. }
  rewrite !evaluator_unfold. unfold dict_get.
  by rewrite !lookup_insert_ne, !lookup_delete_ne.
Qed.

Lemma evaluator_ignores_other_keys_witness :
  ("value" ∉ ["secure"; "httponly"; "samesite_value"])
  ∧ _get_cookie_security_recommendations (<["value" := PyStr "x"]> scenario_a)
    = _get_cookie_security_recommendations scenario_a.
Proof.
  assert (H : "value" ∉ ["secure"; "httponly"; "samesite_value"]).
  { rewrite !elem_of_cons, elem_of_nil. intros [?|[?|[?|[]]]]; discriminate. }
  split; [exact H |].
  apply (evaluator_ignores_other_keys scenario_a "value" (PyStr "x") H).
Defined.

Lemma cookie_info_lookups (w : World) (cookie : Cookie)
    (info : gmap string pyval) :
  cookie_info w cookie = inr info →
  info !! "secure" = Some (secure cookie)
  ∧ info !! "httponly"
    = Some (PyBool (bool_decide (is_Some (_rest cookie !! "HttpOnly"))
                    || bool_decide (is_Some (_rest cookie !! "httponly"))))
  ∧ info !! "samesite_value"
    = Some (default (dict_get (_rest cookie) "samesite")
              (_rest cookie !! "SameSite"))
  ∧ info !! "name" = Some (PyStr (name cookie))
  ∧ info !! "value" = Some (value cookie)
  ∧ info !! "recommendations" = None.
Proof.
  unfold cookie_info. intros Hinfo.
  destruct (match expires cookie with Some _ => _ | None => _ end)
    as [msg|expires_val]; [discriminate|].
  injection Hinfo as <-.
  repeat split;
    rewrite ?lookup_insert_eq, ?lookup_insert_ne by discriminate;
    rewrite ?lookup_insert_eq, ?lookup_singleton_eq,
      ?lookup_singleton_ne by discriminate; reflexivity.
Qed.

Lemma cookie_detail_inv (w : World) (cookie : Cookie)
    (d : gmap string pyval) :
  cookie_detail w cookie = inr d →
  ∃ info,
    cookie_info w cookie = inr info
    ∧ d = <["recommendations" :=
             PyList (PyStr <$> _get_cookie_security_recommendations info)]> info.
Proof.
  unfold cookie_detail. destruct (cookie_info w cookie) as [msg|info];
    [discriminate|].
  intros [= <-]. eauto.
Qed.

Lemma recommendations_key_ignored (info : gmap string pyval) (v : pyval) :
  _get_cookie_security_recommendations (<["recommendations" := v]> info)
  = _get_cookie_security_recommendations info.
Proof.
  rewrite !evaluator_unfold. unfold dict_get.
  by rewrite !lookup_insert_ne.
Qed.

(** The list stored under ['recommendations'] in an entry of
    [cookie_details] is what the evaluator answers for that very entry:
    storing the list does not change the verdict. *)
Theorem entry_recommendations_consistent (w : World) (cookie : Cookie)
    (d : gmap string pyval)
    (Hd : cookie_detail w cookie = inr d) :
  d !! "recommendations"
  = Some (PyList (PyStr <$> _get_cookie_security_recommendations d)).
Proof.
  apply cookie_detail_inv in Hd as (info & _ & ->).
  by rewrite recommendations_key_ignored, lookup_insert_eq.
Qed.

Lemma entry_recommendations_consistent_witness :
  ∃ d, cookie_detail world_ok cookie_a = inr d
       ∧ d !! "recommendations"
         = Some (PyList (PyStr <$> _get_cookie_security_recommendations d)).
Proof.
  eexists. split; [reflexivity |].
  apply (entry_recommendations_consistent world_ok cookie_a). reflexivity.
Defined.

(** HttpOnly counts as set exactly when [_rest] has the key ['HttpOnly']
    or the key ['httponly'], whatever is stored under it; any other
    spelling is not seen and draws the recommendation. *)
Theorem httponly_detection (w : World) (cookie : Cookie)
    (d : gmap string pyval)
    (Hd : cookie_detail w cookie = inr d) :
  (REC_HTTPONLY ∈ _get_cookie_security_recommendations d
   ↔ _rest cookie !! "HttpOnly" = None ∧ _rest cookie !! "httponly" = None)
  ∧ (d !! "httponly" = Some (PyBool false)
     ↔ _rest cookie !! "HttpOnly" = None ∧ _rest cookie !! "httponly" = None).
Proof.
  apply cookie_detail_inv in Hd as (info & Hinfo & ->).
  apply cookie_info_lookups in Hinfo as (_ & Hh & _).
  rewrite recommendations_key_ignored, httponly_recommended_iff.
  rewrite lookup_insert_ne by discriminate.
  unfold dict_get. rewrite Hh. cbn [default truthy].
  assert (bool_decide (is_Some (_rest cookie !! "HttpOnly"))
          || bool_decide (is_Some (_rest cookie !! "httponly")) = false
          ↔ _rest cookie !! "HttpOnly" = None
            ∧ _rest cookie !! "httponly" = None) as Hiff.
  { rewrite orb_false_iff, !bool_decide_eq_false, <- !eq_None_not_Some.
    reflexivity. }
  split; [exact Hiff |].
  rewrite <- Hiff. split; [by intros [= ->] | by intros ->].
Qed.

Lemma httponly_detection_witness :
  ∃ d, cookie_detail world_ok cookie_mixed = inr d
       ∧ REC_HTTPONLY ∈ _get_cookie_security_recommendations d.
Proof.
  eexists. split; [reflexivity |].
  apply (httponly_detection world_ok cookie_mixed); [reflexivity |].
  split; reflexivity.
Defined.

(** The SameSite value is read under ['SameSite'] first: when that key is
    present its value decides, even an empty one, and ['samesite'] is
    consulted only when ['SameSite'] is absent. *)
Theorem samesite_lookup_precedence (w : World) (cookie : Cookie)
    (d : gmap string pyval)
    (Hd : cookie_detail w cookie = inr d) :
  (∀ v, _rest cookie !! "SameSite" = Some v →
        d !! "samesite_value" = Some v
        ∧ (REC_SAMESITE ∈ _get_cookie_security_recommendations d
           ↔ truthy v = false))
  ∧ (_rest cookie !! "SameSite" = None →
     d !! "samesite_value" = Some (dict_get (_rest cookie) "samesite")
     ∧ (REC_SAMESITE ∈ _get_cookie_security_recommendations d
        ↔ truthy (dict_get (_rest cookie) "samesite") = false)).
Proof.
  apply cookie_detail_inv in Hd as (info & Hinfo & ->).
  apply cookie_info_lookups in Hinfo as (_ & _ & Hs & _).
  assert (Hrec : ∀ v, info !! "samesite_value" = Some v →
            REC_SAMESITE ∈ _get_cookie_security_recommendations
              (<["recommendations" :=
                   PyList (PyStr <$> _get_cookie_security_recommendations info)]>
                 info)
            ↔ truthy v = false).
  { intros v Hv.
    rewrite recommendations_key_ignored, samesite_recommended_iff.
    unfold dict_get. by rewrite Hv. }
  rewrite lookup_insert_ne by discriminate.
  split.
  - intros v Hv. rewrite Hv in Hs. cbn [default] in Hs. auto.
  - intros Hv. rewrite Hv in Hs. cbn [default] in Hs. auto.
Qed.

Lemma samesite_lookup_precedence_witness :
  ∃ d, cookie_detail world_ok cookie_mixed = inr d
       ∧ d !! "samesite_value" = Some (PyStr "")
       ∧ (REC_SAMESITE ∈ _get_cookie_security_recommendations d
          ↔ truthy (PyStr "") = false).
Proof.
  eexists. split; [reflexivity |].
  apply (samesite_lookup_precedence world_ok cookie_mixed); reflexivity.
Defined.

(** The verdict on a cookie depends on its [secure] attribute and on
    [_rest] only: name, value, domain, path, expiry and the clock
    conversion do not influence it. *)
Theorem recommendations_depend_on_flags_only (w w' : World)
    (c c' : Cookie) (d d' : gmap string pyval)
    (Hsecure : secure c = secure c') (Hrest : _rest c = _rest c')
    (Hd : cookie_detail w c = inr d) (Hd' : cookie_detail w' c' = inr d') :
  _get_cookie_security_recommendations d
  = _get_cookie_security_recommendations d'
  ∧ d !! "recommendations" = d' !! "recommendations".
Proof.
  apply cookie_detail_inv in Hd as (info & Hinfo & ->).
  apply cookie_detail_inv in Hd' as (info' & Hinfo' & ->).
  apply cookie_info_lookups in Hinfo as (H1 & H2 & H3 & _).
  apply cookie_info_lookups in Hinfo' as (H1' & H2' & H3' & _).
  assert (_get_cookie_security_recommendations info
          = _get_cookie_security_recommendations info') as Heq.
  { rewrite !evaluator_unfold. unfold dict_get.
    by rewrite H1, H2, H3, H1', H2', H3', Hsecure, Hrest. }
  rewrite !recommendations_key_ignored, !lookup_insert_eq, Heq. done.
Qed.

Lemma recommendations_depend_on_flags_only_witness :
  ∃ d d',
    cookie_detail world_ok cookie_a = inr d
    ∧ cookie_detail world_far_expiry (with_value PyNone cookie_a) = inr d'
    ∧ _get_cookie_security_recommendations d
      = _get_cookie_security_recommendations d'.
Proof.
  eexists _, _. split; [reflexivity |]. split; [reflexivity |].
  apply (recommendations_depend_on_flags_only world_ok world_far_expiry
           cookie_a (with_value PyNone cookie_a)); reflexivity.
Defined.

(** Building the entry of a cookie fails in one case only: [expires] is a
    non-zero timestamp that [datetime.fromtimestamp] rejects.  A cookie
    without [expires], or with [expires = 0], never fails and gets
    [None] under ['expires']. *)
Theorem cookie_info_failure_iff (w : World) (cookie : Cookie) :
  (∀ msg, cookie_info w cookie = inl msg
          ↔ ∃ t, expires cookie = Some t ∧ t ≠ 0%Z
                 ∧ fromtimestamp_isoformat w t = inl msg)
  ∧ (expires cookie = None ∨ expires cookie = Some 0%Z →
     ∃ info, cookie_info w cookie = inr info
             ∧ info !! "expires" = Some PyNone).
Proof.
  unfold cookie_info. split.
  - intros msg. destruct (expires cookie) as [t|].
    + destruct (Z.eqb_spec t 0) as [->|Hne].
      * split; [discriminate | intros (t & [= <-] & Hne & _); done].
      * destruct (fromtimestamp_isoformat w t) as [m|iso] eqn:Hts.
        -- split.
           ++ intros [= <-]. eauto.
           ++ intros (t' & [= <-] & _ & Ht'). congruence.
        -- split; [discriminate|].
           intros (t' & [= <-] & _ & Ht'). congruence.
    + split; [discriminate | intros (t & Ht & _); discriminate].
  - intros [->| ->]; cbn; eexists; (split; [reflexivity|]);
      by rewrite lookup_insert_eq.
Qed.

Lemma cookie_info_failure_iff_witness :
  cookie_info world_ok cookie_far = inl "year 33658 is out of range"
  ∧ ∃ info, cookie_info world_far_expiry cookie_mixed = inr info
            ∧ info !! "expires" = Some PyNone.
Proof.
  split.
  - apply (cookie_info_failure_iff world_ok cookie_far).
    exists 1000000000000%Z.
    split; [reflexivity | split; [discriminate | reflexivity]].
  - apply (cookie_info_failure_iff world_far_expiry cookie_mixed).
    right. reflexivity.
Defined.

Lemma analyse_from_app (w : World) (pre post : list Cookie) :
  ∀ acc,
    analyse_from w acc (pre ++ post)
    = match analyse_from w acc pre with
      | inl msg => inl msg
      | inr acc' => analyse_from w acc' post
      end.
Proof.
  induction pre as [|c pre IH]; intros acc; cbn [app analyse_from]; [done|].
  destruct (analyse_cookie w acc c) as [msg|acc']; [done | apply IH].
Qed.

(** One cookie whose expiry cannot be converted makes the scan of a
    successful response end in the generic error report, with the text of
    that conversion error: the entries already built for the cookies
    before it are dropped, and the file and the console stay as they
    were. *)
Theorem one_bad_expiry_fails_the_scan (w : World) (url : string) (st : State)
    (response : Response) (pre post : list Cookie) (c : Cookie) (msg : string)
    (Hget : requests_get w url 10 headers = inr response)
    (Hstatus : ¬ (400 ≤ status_code response < 600)%Z)
    (Hcookies : cookies response = pre ++ c :: post)
    (Hpre : forallb (converts w) pre = true)
    (Hc : cookie_info w c = inl msg) :
  scan_cookies w url st
  = (PyDict (error_report ("Непредвиденная ошибка: " +:+ msg) url
               (now_isoformat w (S (clock st)))),
     {| doc_txt := doc_txt st; console := console st;
        clock := S (S (clock st)) |}).
Proof.
  apply unexpected_failure_state with (st1 := (now w st).2).
  unfold scan_try, mbind, M_bind, lift, raise_for_status. rewrite Hget.
  assert ((400 <=? status_code response)%Z
          && (status_code response <? 600)%Z = false) as ->.
  { apply andb_false_iff.
    destruct (Z.leb_spec 400 (status_code response)); [|by left].
    destruct (Z.ltb_spec (status_code response) 600); [|by right].
    exfalso. apply Hstatus. lia. }
  cbn. rewrite Hcookies. unfold analyse_cookies. rewrite analyse_from_app.
  destruct (analyse_from_spec w pre ([], ∅) Hpre) as (details & s & -> & _).
  cbn [analyse_from]. unfold analyse_cookie. rewrite Hc. reflexivity.
Qed.

Lemma one_bad_expiry_fails_the_scan_witness :
  scan_cookies world_mixed_jar "https://example.com" stale
  = (PyDict (error_report "Непредвиденная ошибка: year 33658 is out of range"
               "https://example.com" "2026-01-01T12:00:01.000000"),
     {| doc_txt := doc_txt stale; console := []; clock := 2 |}).
Proof.
  apply (one_bad_expiry_fails_the_scan world_mixed_jar "https://example.com"
           stale
           {| status_code := 200; cookies := [cookie_a; cookie_far; cookie_b];
              http_error := "" |}
           [cookie_a] [cookie_b] cookie_far "year 33658 is out of range");
    [reflexivity | cbn; lia | reflexivity | reflexivity | reflexivity].
Defined.

(** ** The two parts of the report agree *)

Lemma recommended_for_details (w : World) (cookies : list Cookie)
    (details : list (gmap string pyval)) :
  details_of w cookies details →
  ∀ r, recommended_for w cookies r
       ↔ ∃ d, d ∈ details ∧ r ∈ _get_cookie_security_recommendations d.
Proof.
  unfold details_of. induction 1 as [|c d cs ds Hd _ IH]; intros r.
  - split; [intros Hr; by apply recommended_for_nil in Hr|].
    intros (d & Hd & _). by apply elem_of_nil in Hd.
  - rewrite recommended_for_cons, IH.
    apply cookie_detail_inv in Hd as (info & Hinfo & ->).
    split.
    + intros [(info' & Hinfo' & Hr)|(d & Hd & Hr)].
      * rewrite Hinfo in Hinfo'. injection Hinfo' as <-.
        eexists. split; [left|]. by rewrite recommendations_key_ignored.
      * exists d. split; [by right | done].
    + intros (d & Hd & Hr). apply elem_of_cons in Hd as [->|Hd].
      * left. exists info. split; [done|].
        by rewrite recommendations_key_ignored in Hr.
      * right. eauto.
Qed.

Lemma details_recommendations_key (w : World) (cookies : list Cookie)
    (details : list (gmap string pyval)) (d : gmap string pyval) :
  details_of w cookies details → d ∈ details →
  d !! "recommendations"
  = Some (PyList (PyStr <$> _get_cookie_security_recommendations d)).
Proof.
  unfold details_of. induction 1 as [|c d0 cs ds Hd _ IH]; intros Hin.
  - by apply elem_of_nil in Hin.
  - apply elem_of_cons in Hin as [->|Hin]; [|auto].
    apply cookie_detail_inv in Hd as (info & _ & ->).
    by rewrite recommendations_key_ignored, lookup_insert_eq.
Qed.

(** A string is in the site-wide list exactly when it is in the list
    stored under ['recommendations'] of some entry of [cookie_details]. *)
Theorem site_list_matches_entries (w : World) (cookies : list Cookie)
    (Hok : forallb (converts w) cookies = true) :
  ∃ details s,
    analyse_cookies w cookies = inr (details, s)
    ∧ ∀ r, r ∈ site_recommendations s
           ↔ ∃ d l, d ∈ details
                    ∧ d !! "recommendations" = Some (PyList l)
                    ∧ PyStr r ∈ l.
Proof.
  destruct (analyse_cookies_spec w cookies Hok)
    as (details & s & Hrun & Hdetails & Hs).
  exists details, s. split; [exact Hrun|]. intros r.
  rewrite site_recommendations_elem_of, Hs,
    (recommended_for_details w cookies details Hdetails).
  split.
  - intros (d & Hd & Hr). exists d. eexists. split; [done|]. split.
    + by eapply details_recommendations_key.
    + by apply list_elem_of_fmap_2.
  - intros (d & l & Hd & Hl & Hr). exists d. split; [done|].
    rewrite (details_recommendations_key w cookies details d Hdetails Hd) in Hl.
    injection Hl as <-.
    apply list_elem_of_fmap in Hr as (r' & [= <-] & Hr'). done.
Qed.

Lemma site_list_matches_entries_witness :
  forallb (converts world_ok) [cookie_a; cookie_b] = true
  ∧ ∃ details s,
      analyse_cookies world_ok [cookie_a; cookie_b] = inr (details, s)
      ∧ ∀ r, r ∈ site_recommendations s
             ↔ ∃ d l, d ∈ details
                      ∧ d !! "recommendations" = Some (PyList l)
                      ∧ PyStr r ∈ l.
Proof.
  split; [reflexivity |].
  apply (site_list_matches_entries world_ok [cookie_a; cookie_b]). reflexivity.
Defined.

(** The site-wide list is empty exactly when no entry of
    [cookie_details] got a recommendation. *)
Theorem no_site_recommendations_iff (w : World) (cookies : list Cookie)
    (Hok : forallb (converts w) cookies = true) :
  ∃ details s,
    analyse_cookies w cookies = inr (details, s)
    ∧ (site_recommendations s = []
       ↔ ∀ d, d ∈ details → _get_cookie_security_recommendations d = []).
Proof.
  destruct (analyse_cookies_spec w cookies Hok)
    as (details & s & Hrun & Hdetails & Hs).
  exists details, s. split; [exact Hrun|].
  pose proof (recommended_for_details w cookies details Hdetails) as Hrec.
  split.
  - intros Hnil d Hd.
    destruct (_get_cookie_security_recommendations d) as [|r l] eqn:Hev;
      [done|].
    assert (r ∈ site_recommendations s) as Hr.
    { apply site_recommendations_elem_of, Hs, Hrec.
      exists d. split; [done|]. rewrite Hev. left. }
    rewrite Hnil in Hr. by apply elem_of_nil in Hr.
  - intros Hall.
    destruct (site_recommendations s) as [|r l] eqn:Hsite; [done|].
    assert (r ∈ site_recommendations s) as Hr by (rewrite Hsite; left).
    apply site_recommendations_elem_of, Hs, Hrec in Hr as (d & Hd & Hr).
    rewrite (Hall d Hd) in Hr. by apply elem_of_nil in Hr.
Qed.

Lemma no_site_recommendations_iff_witness :
  forallb (converts world_ok) [cookie_b; cookie_b] = true
  ∧ ∃ details s,
      analyse_cookies world_ok [cookie_b; cookie_b] = inr (details, s)
      ∧ (site_recommendations s = []
         ↔ ∀ d, d ∈ details → _get_cookie_security_recommendations d = []).
Proof.
  split; [reflexivity |].
  apply (no_site_recommendations_iff world_ok [cookie_b; cookie_b]).
  reflexivity.
Defined.

(** [sorted(list(s))] does not depend on the order in which Python
    happens to enumerate the set: every enumeration sorts to the same
    list. *)
Theorem site_list_independent_of_enumeration (s : gset string)
    (l : list string)
    (Hnodup : NoDup l) (Hmem : ∀ r, r ∈ l ↔ r ∈ s) :
  sorted l = site_recommendations s.
Proof.
  unfold site_recommendations. apply sorted_iteration_order.
  apply NoDup_Permutation; [done | apply NoDup_elements |].
  intros r. by rewrite Hmem, elem_of_elements.
Qed.

Lemma site_list_independent_of_enumeration_witness :
  sorted [REC_SECURE; REC_SAMESITE; REC_HTTPONLY]
  = site_recommendations {[REC_HTTPONLY; REC_SECURE; REC_SAMESITE]}.
Proof.
  destruct REC_distinct as (H1 & H2 & H3).
  apply (site_list_independent_of_enumeration
           {[REC_HTTPONLY; REC_SECURE; REC_SAMESITE]}
           [REC_SECURE; REC_SAMESITE; REC_HTTPONLY]).
  - repeat (constructor;
            [rewrite ?elem_of_cons, ?elem_of_nil; intuition congruence|]).
    constructor.
  - intros r. rewrite !elem_of_cons, elem_of_nil, !elem_of_union,
      !elem_of_singleton. tauto.
Defined.

(** * Further properties of [scan_cookies] *)

Lemma status_ok_false (response : Response) :
  ¬ (400 ≤ status_code response < 600)%Z →
  (400 <=? status_code response)%Z && (status_code response <? 600)%Z = false.
Proof.
  intros Hstatus. apply andb_false_iff.
  destruct (Z.leb_spec 400 (status_code response)); [|by left].
  destruct (Z.ltb_spec (status_code response) 600); [|by right].
  exfalso. apply Hstatus. lia.
Qed.

(** The three ways a scan can end (report, request failure, unexpected
    failure), each with its result and final state. *)
Lemma scan_cookies_cases (w : World) (url : string) (st : State) :
  (∃ response details s,
      requests_get w url 10 headers = inr response
      ∧ ¬ (400 ≤ status_code response < 600)%Z
      ∧ analyse_cookies w (cookies response) = inr (details, s)
      ∧ open_doc_txt w = None
      ∧ scan_cookies w url st
        = (PyDict (success_report url (now_isoformat w (clock st))
                     (length (cookies response)) details
                     (site_recommendations s)),
           {| doc_txt :=
                Some (success_layout w url (now_isoformat w (clock st))
                        (status_code response) (length (cookies response))
                        details (site_recommendations s));
              console := console st;
              clock := S (clock st) |}))
  ∨ (∃ msg,
        request_fails w url msg
        ∧ scan_cookies w url st
          = (PyDict (error_report ("Ошибка при запросе к URL: " +:+ msg) url
                       (now_isoformat w (S (clock st)))),
             {| doc_txt :=
                  match open_doc_txt w with
                  | None =>
                      Some (failure_layout url (now_isoformat w (S (clock st)))
                              ("Ошибка при запросе к URL: " +:+ msg))
                  | Some _ =>
                      match reached_doc_txt w with
                      | None => doc_txt st
                      | Some n =>
                          Some (String.substring 0 n
                                  (failure_layout url
                                     (now_isoformat w (S (clock st)))
                                     ("Ошибка при запросе к URL: " +:+ msg)))
                      end
                  end;
                console :=
                  match open_doc_txt w with
                  | None => console st
                  | Some write_e =>
                      console st
                      ++ ["Критическая ошибка при записи лога: " +:+ write_e]
                  end;
                clock := S (S (clock st)) |}))
  ∨ (∃ msg file,
        scan_cookies w url st
        = (PyDict (error_report ("Непредвиденная ошибка: " +:+ msg) url
                     (now_isoformat w (S (clock st)))),
           {| doc_txt := file; console := console st;
              clock := S (S (clock st)) |})
        ∧ (file = doc_txt st
           ∨ ∃ response details s n,
               requests_get w url 10 headers = inr response
               ∧ analyse_cookies w (cookies response) = inr (details, s)
               ∧ open_doc_txt w = Some msg
               ∧ reached_doc_txt w = Some n
               ∧ file
                 = Some (String.substring 0 n
                           (success_layout w url (now_isoformat w (clock st))
                              (status_code response)
                              (length (cookies response)) details
                              (site_recommendations s))))).
Proof.
  destruct (requests_get w url 10 headers) as [[msg|msg]|response] eqn:Hget.
  - right; left. exists msg. split; [by left|].
    unfold scan_cookies. cbn [now].
    rewrite (scan_try_request_failure w url _ msg _ (or_introl Hget)).
    cbn [now clock]. unfold write_doc_txt.
    destruct (open_doc_txt w); [|done]. by destruct (reached_doc_txt w).
  - right; right. exists msg, (doc_txt st). split; [|by left].
    apply (unexpected_failure_state w url st (now w st).2).
    unfold scan_try, mbind, M_bind, lift. by rewrite Hget.
  - destruct (decide (400 ≤ status_code response < 600)%Z) as [Hbad|Hgood].
    + right; left. exists (http_error response).
      assert (request_fails w url (http_error response)) as Hfail.
      { right. eauto. }
      split; [exact Hfail|].
      unfold scan_cookies. cbn [now].
      rewrite (scan_try_request_failure w url _ _ _ Hfail).
      cbn [now clock]. unfold write_doc_txt.
      destruct (open_doc_txt w); [|done]. by destruct (reached_doc_txt w).
    + destruct (analyse_cookies w (cookies response)) as [msg|[details s]] eqn:Hrun.
      * right; right. exists msg, (doc_txt st). split; [|by left].
        apply (unexpected_failure_state w url st (now w st).2).
        unfold scan_try, mbind, M_bind, lift, raise_for_status.
        rewrite Hget, (status_ok_false _ Hgood). cbn. by rewrite Hrun.
      * destruct (open_doc_txt w) as [write_e|] eqn:Hopen.
        -- right; right. exists write_e.
           destruct (reached_doc_txt w) as [n|] eqn:Hreached.
           ++ eexists. split.
              ** apply (unexpected_failure_state w url st
                          {| doc_txt :=
                               Some (String.substring 0 n
                                       (success_layout w url
                                          (now_isoformat w (clock st))
                                          (status_code response)
                                          (length (cookies response)) details
                                          (site_recommendations s)));
                             console := console st;
                             clock := S (clock st) |}).
                 unfold scan_try, mbind, M_bind, lift, raise_for_status.
                 rewrite Hget, (status_ok_false _ Hgood). cbn. rewrite Hrun.
                 unfold write_doc_txt. by rewrite Hopen, Hreached.
              ** right. exists response, details, s, n. auto.
           ++ exists (doc_txt st). split; [|by left].
              apply (unexpected_failure_state w url st (now w st).2).
              unfold scan_try, mbind, M_bind, lift, raise_for_status.
              rewrite Hget, (status_ok_false _ Hgood). cbn. rewrite Hrun.
              unfold write_doc_txt. by rewrite Hopen, Hreached.
        -- left. exists response, details, s. repeat split; auto.
           unfold scan_cookies, now, scan_try, mbind, M_bind, lift,
             raise_for_status.
           rewrite Hget, (status_ok_false _ Hgood). cbn. rewrite Hrun.
           unfold write_doc_txt. rewrite Hopen. reflexivity.
Qed.

Lemma error_report_lookups (error url t : string) :
  error_report error url t !! "error" = Some (PyStr error)
  ∧ error_report error url t !! "url" = Some (PyStr url)
  ∧ error_report error url t !! "scan_time" = Some (PyStr t)
  ∧ error_report error url t !! "cookies_found" = None
  ∧ error_report error url t !! "cookie_details" = None
  ∧ error_report error url t !! "security_recommendations" = None.
Proof.
  unfold error_report. repeat split;
    rewrite ?lookup_insert_eq, ?lookup_insert_ne by discriminate;
    rewrite ?lookup_insert_eq, ?lookup_singleton_eq,
      ?lookup_singleton_ne by discriminate; reflexivity.
Qed.

Lemma success_report_lookups (url t : string) (n : nat)
    (details : list (gmap string pyval)) (recs : list string) :
  success_report url t n details recs !! "error" = None
  ∧ success_report url t n details recs !! "url" = Some (PyStr url)
  ∧ success_report url t n details recs !! "scan_time" = Some (PyStr t)
  ∧ success_report url t n details recs !! "cookies_found"
    = Some (PyInt (Z.of_nat n))
  ∧ success_report url t n details recs !! "cookie_details"
    = Some (PyList (PyDict <$> details))
  ∧ success_report url t n details recs !! "security_recommendations"
    = Some (PyList (PyStr <$> recs)).
Proof.
  unfold success_report. repeat split;
    rewrite ?lookup_insert_eq, ?lookup_insert_ne by discriminate;
    rewrite ?lookup_insert_eq, ?lookup_singleton_eq,
      ?lookup_singleton_ne by discriminate; reflexivity.
Qed.

(** Whatever happens during the scan, [scan_cookies] returns a dict that
    carries the [url] it was given and a [scan_time], and that is of one
    of two shapes: an error report, with [error] and none of the three
    result keys, or a scan report, with the three result keys and no
    [error]. *)
Theorem result_is_report_or_error (w : World) (url : string) (st : State) :
  ∃ d,
    (scan_cookies w url st).1 = PyDict d
    ∧ d !! "url" = Some (PyStr url)
    ∧ is_Some (d !! "scan_time")
    ∧ ((is_Some (d !! "error")
        ∧ d !! "cookies_found" = None
        ∧ d !! "cookie_details" = None
        ∧ d !! "security_recommendations" = None)
       ∨ (d !! "error" = None
          ∧ is_Some (d !! "cookies_found")
          ∧ is_Some (d !! "cookie_details")
          ∧ is_Some (d !! "security_recommendations"))).
Proof.
  destruct (scan_cookies_cases w url st)
    as [(response & details & s & _ & _ & _ & _ & ->)
       |[(msg & _ & ->)|(msg & file & -> & _)]];
    cbn [fst]; eexists; (split; [reflexivity|]).
  - destruct (success_report_lookups url (now_isoformat w (clock st))
                (length (cookies response)) details (site_recommendations s))
      as (-> & -> & -> & -> & -> & ->).
    split; [done|]. split; [eauto|]. right. eauto.
  - destruct (error_report_lookups ("Ошибка при запросе к URL: " +:+ msg) url
                (now_isoformat w (S (clock st))))
      as (-> & -> & -> & -> & -> & ->).
    split; [done|]. split; [eauto|]. left. eauto.
  - destruct (error_report_lookups ("Непредвиденная ошибка: " +:+ msg) url
                (now_isoformat w (S (clock st))))
      as (-> & -> & -> & -> & -> & ->).
    split; [done|]. split; [eauto|]. left. eauto.
Qed.


(** What a scan can leave in [doc.txt]: the file as it was before; or
    the success layout of the very report that is returned; or the three
    lines of the error header of a request failure; or, when the write
    fails after the file was opened, the first bytes of the text that
    was being written (the success layout or the error header), the
    earlier content being lost. *)
Theorem doc_txt_after_scan (w : World) (url : string) (st : State) :
  let header msg :=
    "Ошибка сканирования для URL: " +:+ url +:+ nl
    +:+ "Время: " +:+ now_isoformat w (S (clock st)) +:+ nl
    +:+ "Ошибка: " +:+ ("Ошибка при запросе к URL: " +:+ msg) +:+ nl in
  doc_txt (scan_cookies w url st).2 = doc_txt st
  ∨ (∃ response details s,
        requests_get w url 10 headers = inr response
        ∧ analyse_cookies w (cookies response) = inr (details, s)
        ∧ (scan_cookies w url st).1
          = PyDict (success_report url (now_isoformat w (clock st))
                      (length (cookies response)) details
                      (site_recommendations s))
        ∧ doc_txt (scan_cookies w url st).2
          = Some (success_layout w url (now_isoformat w (clock st))
                    (status_code response) (length (cookies response))
                    details (site_recommendations s)))
  ∨ (∃ msg,
        request_fails w url msg
        ∧ open_doc_txt w = None
        ∧ doc_txt (scan_cookies w url st).2 = Some (header msg))
  ∨ (∃ write_e n text,
        open_doc_txt w = Some write_e
        ∧ reached_doc_txt w = Some n
        ∧ doc_txt (scan_cookies w url st).2 = Some (String.substring 0 n text)
        ∧ ((∃ response details s,
              requests_get w url 10 headers = inr response
              ∧ analyse_cookies w (cookies response) = inr (details, s)
              ∧ text
                = success_layout w url (now_isoformat w (clock st))
                    (status_code response) (length (cookies response))
                    details (site_recommendations s))
           ∨ (∃ msg, request_fails w url msg ∧ text = header msg))).
Proof.
  intros header.
  destruct (scan_cookies_cases w url st)
    as [(response & details & s & Hget & _ & Hrun & _ & ->)
       |[(msg & Hfail & ->)
        |(msg & file & ->
          & [->|(response & details & s & n & Hget & Hrun & Hopen & Hreached & ->)])]];
    cbn [fst snd doc_txt].
  - right; left. exists response, details, s. auto.
  - destruct (open_doc_txt w) as [write_e|] eqn:Hopen.
    + destruct (reached_doc_txt w) as [n|] eqn:Hreached; [|by left].
      right; right; right. exists write_e, n, (header msg).
      split; [reflexivity|]. split; [reflexivity|]. split; [reflexivity|].
      right. exists msg. split; [exact Hfail | reflexivity].
    + right; right; left. exists msg.
      split; [exact Hfail|]. split; reflexivity.
  - by left.
  - right; right; right. eexists msg, n, _.
    split; [exact Hopen|]. split; [exact Hreached|]. split; [reflexivity|].
    left. exists response, details, s.
    split; [exact Hget|]. split; [exact Hrun | reflexivity].
Qed.

(** A full disk during a successful scan: the generic error dict is
    returned and the earlier report is replaced by an empty file. *)
Example success_disk_full :
  scan_cookies
    {| requests_get := requests_get world_ok;
       now_isoformat := clock_example;
       fromtimestamp_isoformat := fromtimestamp_example;
       open_doc_txt := Some "[Errno 28] No space left on device";
       reached_doc_txt := Some 0;
       py_repr := fun _ => "" |}
    "https://example.com" stale
  = (PyDict (error_report
               "Непредвиденная ошибка: [Errno 28] No space left on device"
               "https://example.com" "2026-01-01T12:00:01.000000"),
     {| doc_txt := Some ""; console := []; clock := 2 |}).
Proof. vm_compute. reflexivity. Qed.

(** A scan report is returned only after [doc.txt] was written: when the
    result has no [error] key, the file holds the success layout. *)
Theorem report_returned_implies_file_written (w : World) (url : string)
    (st : State) (d : gmap string pyval)
    (Hres : (scan_cookies w url st).1 = PyDict d)
    (Herr : d !! "error" = None) :
  ∃ response details s,
    requests_get w url 10 headers = inr response
    ∧ analyse_cookies w (cookies response) = inr (details, s)
    ∧ open_doc_txt w = None
    ∧ doc_txt (scan_cookies w url st).2
      = Some (success_layout w url (now_isoformat w (clock st))
                (status_code response) (length (cookies response))
                details (site_recommendations s))
    ∧ console (scan_cookies w url st).2 = console st.
Proof.
  destruct (scan_cookies_cases w url st)
    as [(response & details & s & Hget & _ & Hrun & Hopen & Hscan)
       |[(msg & _ & Hscan)|(msg & file & Hscan & _)]];
    rewrite Hscan in Hres |- *; cbn [fst snd doc_txt console] in *.
  - exists response, details, s. auto.
  - injection Hres as <-.
    destruct (error_report_lookups ("Ошибка при запросе к URL: " +:+ msg) url
                (now_isoformat w (S (clock st)))) as (He & _).
    congruence.
  - injection Hres as <-.
    destruct (error_report_lookups ("Непредвиденная ошибка: " +:+ msg) url
                (now_isoformat w (S (clock st)))) as (He & _).
    congruence.
Qed.

Lemma report_returned_implies_file_written_witness :
  ∃ d,
    (scan_cookies world_ok "https://example.com" stale).1 = PyDict d
    ∧ d !! "error" = None
    ∧ ∃ response details s,
        requests_get world_ok "https://example.com" 10 headers = inr response
        ∧ analyse_cookies world_ok (cookies response) = inr (details, s)
        ∧ open_doc_txt world_ok = None
        ∧ doc_txt (scan_cookies world_ok "https://example.com" stale).2
          = Some (success_layout world_ok "https://example.com"
                    (now_isoformat world_ok (clock stale))
                    (status_code response) (length (cookies response))
                    details (site_recommendations s))
        ∧ console (scan_cookies world_ok "https://example.com" stale).2
          = console stale.
Proof.
  destruct (scan_cookies_cases world_ok "https://example.com" stale)
    as [(response & details & s & _ & _ & _ & _ & Hscan)
       |[(msg & [Hget|(r & Hget & Hstatus & _)] & _)|(msg & file & Hscan & _)]].
  - eexists. split; [by rewrite Hscan|].
    destruct (success_report_lookups "https://example.com"
                (now_isoformat world_ok (clock stale))
                (length (cookies response)) details (site_recommendations s))
      as (He & _).
    split; [exact He|].
    apply (report_returned_implies_file_written world_ok "https://example.com"
             stale _ (f_equal fst Hscan) He).
  - discriminate Hget.
  - injection Hget as <-. cbn in Hstatus. lia.
  - exfalso. revert Hscan. vm_compute. discriminate.
Defined.

(** ** The success report *)

(** In a scan report [cookies_found] is the number of cookies received,
    [cookie_details] has one entry per cookie in the order received (the
    i-th entry carries the i-th cookie's name), and [scan_time] is the
    clock reading taken before the request was sent. *)
Theorem report_counts_and_order (w : World) (url : string) (st : State)
    (response : Response)
    (Hget : requests_get w url 10 headers = inr response)
    (Hstatus : ¬ (400 ≤ status_code response < 600)%Z)
    (Hok : forallb (converts w) (cookies response) = true)
    (Hopen : open_doc_txt w = None) :
  ∃ results details,
    (scan_cookies w url st).1 = PyDict results
    ∧ results !! "cookies_found"
      = Some (PyInt (Z.of_nat (length (cookies response))))
    ∧ results !! "cookie_details" = Some (PyList (PyDict <$> details))
    ∧ length details = length (cookies response)
    ∧ (∀ i c, cookies response !! i = Some c →
              ∃ d, details !! i = Some d ∧ d !! "name" = Some (PyStr (name c)))
    ∧ results !! "scan_time" = Some (PyStr (now_isoformat w (clock st))).
Proof.
  destruct (scan_success w url st response Hget Hstatus Hok Hopen)
    as (details & s & results & Hrun & Hscan & _ & Ht & Hn & Hdetails & _).
  destruct (analyse_cookies_spec w _ Hok) as (details' & s' & Hrun' & Hof & _).
  rewrite Hrun in Hrun'. injection Hrun' as <- <-.
  exists results, details. rewrite Hscan. cbn [fst].
  repeat split; auto.
  - symmetry. eapply Forall2_length, Hof.
  - intros i c Hc.
    destruct (Forall2_lookup_l _ _ _ _ _ Hof Hc) as (d & Hd & Hcd).
    exists d. split; [exact Hd|].
    apply cookie_detail_inv in Hcd as (info & Hinfo & ->).
    apply cookie_info_lookups in Hinfo as (_ & _ & _ & Hname & _).
    by rewrite lookup_insert_ne.
Qed.

Lemma report_counts_and_order_witness :
  ∃ results details,
    (scan_cookies world_ok "https://example.com" fresh).1 = PyDict results
    ∧ results !! "cookies_found" = Some (PyInt 2)
    ∧ results !! "cookie_details" = Some (PyList (PyDict <$> details))
    ∧ length details = 2
    ∧ (∀ i c, [cookie_a; cookie_b] !! i = Some c →
              ∃ d, details !! i = Some d ∧ d !! "name" = Some (PyStr (name c)))
    ∧ results !! "scan_time" = Some (PyStr "2026-01-01T12:00:00.000000").
Proof.
  apply (report_counts_and_order world_ok "https://example.com" fresh
           {| status_code := 200; cookies := [cookie_a; cookie_b];
              http_error := "" |});
    [reflexivity | cbn; lia | reflexivity | reflexivity].
Defined.

(** A response without cookies is a success: the report has
    [cookies_found = 0] and two empty lists, and [doc.txt] holds the
    header, the sentence that no cookies were found and the sentence that
    no omissions were found. *)
Theorem empty_jar_report (w : World) (url : string) (st : State)
    (response : Response)
    (Hget : requests_get w url 10 headers = inr response)
    (Hstatus : ¬ (400 ≤ status_code response < 600)%Z)
    (Hcookies : cookies response = [])
    (Hopen : open_doc_txt w = None) :
  scan_cookies w url st
  = (PyDict (success_report url (now_isoformat w (clock st)) 0 [] []),
     {| doc_txt :=
          Some ("Результаты сканирования cookie для URL: " +:+ url +:+ nl
                +:+ "Время сканирования: " +:+ now_isoformat w (clock st) +:+ nl
                +:+ "HTTP Status Code ответа: "
                +:+ pretty (status_code response) +:+ nl
                +:+ "Всего найдено cookie: 0" +:+ nl +:+ nl
                +:+ "Cookies не найдены или сервер их не установил." +:+ nl
                +:+ nl
                +:+ "--- Общие рекомендации по безопасности для сайта ---"
                +:+ nl
                +:+ "Для проанализированных cookie не найдено очевидных упущений в базовых флагах безопасности (Secure, HttpOnly, SameSite)."
                +:+ nl);
        console := console st;
        clock := S (clock st) |}).
Proof.
  unfold scan_cookies, now, scan_try, mbind, M_bind, lift, raise_for_status.
  rewrite Hget, (status_ok_false _ Hstatus). cbn. rewrite Hcookies.
  unfold write_doc_txt. rewrite Hopen. reflexivity.
Qed.

Lemma empty_jar_report_witness :
  (scan_cookies world_no_cookies "https://example.com" stale).1
  = PyDict (success_report "https://example.com"
              "2026-01-01T12:00:00.000000" 0 [] []).
Proof.
  apply (f_equal fst
           (empty_jar_report world_no_cookies "https://example.com" stale
              {| status_code := 200; cookies := []; http_error := "" |}
              eq_refl ltac:(cbn; lia) eq_refl eq_refl)).
Defined.

(** ** The cookie value stays out of the file *)

Lemma cookie_info_with_value (w : World) (v : pyval) (cookie : Cookie) :
  match cookie_info w cookie with
  | inl msg => cookie_info w (with_value v cookie) = inl msg
  | inr info =>
      cookie_info w (with_value v cookie) = inr (<["value" := v]> info)
  end.
Proof.
  unfold cookie_info. cbn [with_value expires _rest secure path domain name value].
  destruct (match expires cookie with Some _ => _ | None => _ end)
    as [msg|expires_val]; [done|].
  reflexivity.
Qed.

Lemma cookie_block_same_but_value (w : World) (idx : nat)
    (d d' : gmap string pyval) :
  same_but_value d d' → cookie_block w idx d = cookie_block w idx d'.
Proof.
  intros Hsame. unfold cookie_block.
  rewrite !lookup_total_alt.
  by rewrite !Hsame by discriminate.
Qed.

Lemma imap_cookie_block_same (w : World)
    (details details' : list (gmap string pyval)) :
  Forall2 same_but_value details details' →
  ∀ k, imap (fun i => cookie_block w (k + i)) details
       = imap (fun i => cookie_block w (k + i)) details'.
Proof.
  induction 1 as [|d d' ds ds' Hd _ IH]; intros k; [done|].
  cbn [imap]. f_equal.
  - by apply cookie_block_same_but_value.
  - specialize (IH (S k)).
    erewrite (imap_ext _ (fun i => cookie_block w (S k + i)) ds); [|
      intros i x _; cbn; f_equal; lia].
    erewrite (imap_ext _ (fun i => cookie_block w (S k + i)) ds'); [|
      intros i x _; cbn; f_equal; lia].
    exact IH.
Qed.

Lemma analyse_from_with_value (w : World) (v : pyval) (cookies : list Cookie) :
  ∀ ds ds' s,
    Forall2 same_but_value ds ds' →
    match analyse_from w (ds, s) cookies with
    | inl msg => analyse_from w (ds', s) (with_value v <$> cookies) = inl msg
    | inr (ds2, s2) =>
        ∃ ds2', analyse_from w (ds', s) (with_value v <$> cookies)
                = inr (ds2', s2)
                ∧ Forall2 same_but_value ds2 ds2'
    end.
Proof.
  induction cookies as [|c cs IH]; intros ds ds' s Hds; cbn [analyse_from fmap list_fmap].
  - eauto.
  - unfold analyse_cookie.
    pose proof (cookie_info_with_value w v c) as Hc.
    destruct (cookie_info w c) as [msg|info]; rewrite Hc; [done|].
    cbn [fst snd].
    assert (_get_cookie_security_recommendations (<["value" := v]> info)
            = _get_cookie_security_recommendations info) as Hev.
    { rewrite !evaluator_unfold. unfold dict_get.
      by rewrite !lookup_insert_ne. }
    rewrite Hev. apply IH.
    apply Forall2_app; [done|]. constructor; [|constructor].
    unfold same_but_value. intros k Hk. rewrite !lookup_insert.
    destruct (decide ("recommendations" = k)); [done|].
    destruct (decide ("value" = k)); [congruence | done].
Qed.

(** The cookie's value never reaches [doc.txt]: scanning the same cookies
    with every value replaced writes the same text, and finds the same
    site-wide recommendations. *)
Theorem cookie_value_not_written (w : World) (v : pyval)
    (cookies : list Cookie) (url scan_time : string) (status : Z)
    (Hok : forallb (converts w) cookies = true) :
  ∃ details details' s,
    analyse_cookies w cookies = inr (details, s)
    ∧ analyse_cookies w (with_value v <$> cookies) = inr (details', s)
    ∧ success_layout w url scan_time status (length (with_value v <$> cookies))
        details' (site_recommendations s)
      = success_layout w url scan_time status (length cookies)
          details (site_recommendations s).
Proof.
  destruct (analyse_cookies_spec w cookies Hok) as (details & s & Hrun & _ & _).
  assert (Forall2 same_but_value [] []) as Hnil by constructor.
  pose proof (analyse_from_with_value w v cookies [] [] ∅ Hnil) as Hv.
  unfold analyse_cookies in *. rewrite Hrun in Hv.
  destruct Hv as (details' & Hrun' & Hsame).
  exists details, details', s. repeat split; auto.
  unfold success_layout. rewrite length_fmap.
  pose proof (imap_cookie_block_same w details details' Hsame 0) as Himap.
  cbn in Himap.
  assert (imap (cookie_block w) details = imap (cookie_block w) details')
    as -> by exact Himap.
  by destruct Hsame.
Qed.

Lemma cookie_value_not_written_witness :
  forallb (converts world_ok) [cookie_a; cookie_b] = true
  ∧ ∃ details details' s,
      analyse_cookies world_ok [cookie_a; cookie_b] = inr (details, s)
      ∧ analyse_cookies world_ok
          (with_value (PyStr "secret") <$> [cookie_a; cookie_b])
        = inr (details', s)
      ∧ success_layout world_ok "u" "t" 200
          (length (with_value (PyStr "secret") <$> [cookie_a; cookie_b]))
          details' (site_recommendations s)
        = success_layout world_ok "u" "t" 200 (length [cookie_a; cookie_b])
            details (site_recommendations s).
Proof.
  split; [reflexivity |].
  apply (cookie_value_not_written world_ok (PyStr "secret")
           [cookie_a; cookie_b] "u" "t" 200).
  reflexivity.
Defined.

(** * The entry point *)

Lemma main_console (mw : MainWorld) (st : MainState) :
  console (scan_state (main mw st).2)
  = console (scan_cookies (scan_world mw) test_url
               (print ("Сканирование URL: " +:+ test_url) (scan_state st))).2
    ++ [nl +:+ "Результат выполнения функции (JSON):";
        json_dumps mw
          (scan_cookies (scan_world mw) test_url
             (print ("Сканирование URL: " +:+ test_url) (scan_state st))).1;
        SAVED_MESSAGE]
    ++ match open_requirements_txt mw with
       | None => ["Файл requirements.txt создан/обновлен."]
       | Some _ => []
       end.
Proof.
  unfold main.
  destruct (scan_cookies (scan_world mw) test_url _) as [results s].
  destruct (open_requirements_txt mw); cbn; rewrite <- ?app_assoc; cbn;
    by rewrite ?app_nil_r.
Qed.

Lemma main_doc_txt (mw : MainWorld) (st : MainState) :
  doc_txt (scan_state (main mw st).2)
  = doc_txt (scan_cookies (scan_world mw) test_url
               (print ("Сканирование URL: " +:+ test_url) (scan_state st))).2.
Proof.
  unfold main.
  destruct (scan_cookies (scan_world mw) test_url _) as [results s].
  by destruct (open_requirements_txt mw).
Qed.

(** The script announces that the detailed report was saved in [doc.txt]
    on every run, after the JSON of whatever [scan_cookies] returned; it
    does so even on a run that leaves no [doc.txt] behind. *)
Theorem main_always_announces_doc_txt :
  (∀ mw st,
     SAVED_MESSAGE ∈ console (scan_state (main mw st).2)
     ∧ ∃ before after,
         console (scan_state (main mw st).2)
         = console (scan_state st)
           ++ ["Сканирование URL: https://google.com"] ++ before
           ++ [SAVED_MESSAGE] ++ after)
  ∧ SAVED_MESSAGE ∈ console (scan_state (main main_world_far_expiry main_fresh).2)
  ∧ doc_txt (scan_state (main main_world_far_expiry main_fresh).2) = None.
Proof.
  split; [|split].
  - intros mw st. rewrite main_console. split.
    + rewrite !elem_of_app. right. left.
      rewrite !elem_of_cons. auto.
    + set (s0 := print ("Сканирование URL: " +:+ test_url) (scan_state st)).
      destruct (scan_cookies_cases (scan_world mw) test_url s0)
        as [(response & details & s & _ & _ & _ & _ & ->)
           |[(msg & _ & ->)|(msg & file & -> & _)]];
        cbn [fst snd console s0 print].
      * eexists [_; _], _. rewrite <- !app_assoc. reflexivity.
      * destruct (open_doc_txt (scan_world mw)).
        -- eexists [_; _; _], _. rewrite <- !app_assoc. reflexivity.
        -- eexists [_; _], _. rewrite <- !app_assoc. reflexivity.
      * eexists [_; _], _. rewrite <- !app_assoc. reflexivity.
  - rewrite main_console. rewrite !elem_of_app. right. left.
    rewrite !elem_of_cons. auto.
  - rewrite main_doc_txt. vm_compute. reflexivity.
Qed.

